(** * The documentary segment pipeline: tracker, segmenter and orchestrator

    A shallow embedding of
      - [processors/experiment_tracker.py]  (modules [Run] and [Tracker]),
      - [processors/document_processor.py]  (module [Documents]),
      - [processors/image_generator.py], [audio_generator.py],
        [video_generator.py] and [main.py]  (module [Pipeline]),
    followed by the properties of the run state, of the segmenter and of the
    orchestrator.

    Python values are modelled as follows.  A [str] is a [string] whose
    characters are code points below 256.  A [dict] is an association list
    in insertion order.  [Optional[str]] is [option string].  An [int] is a
    [Z].  Exceptions are values of [exn]; a computation is a function from
    the world to an outcome and the next world.

    What lies outside the program is part of the world: the clock, the
    files, and an oracle that answers every call to the completion, image
    and voice services, to [ffmpeg] and to the web.  The embedding takes
    for granted that writing a file under [experiments/] or [temp/]
    succeeds, that a call to a W&B run that exists succeeds, and that the
    OpenAI client can be constructed; calls that only draw on the page
    ([st.title], [st.write], [st.image], ...) are left out, while
    [st.error], [st.warning] and [st.success] are recorded. *)

From stdpp Require Import base strings list gmap pretty.
From Stdlib Require Import ZArith Ascii Lia.

Open Scope string_scope.
Open Scope list_scope.
Open Scope Z_scope.

Local Set Warnings "-register-all".

(** ** Python strings and values *)

Module Py.

Definition LF : string := String (ascii_of_nat 10) "".
Definition DQUOTE : string := String (ascii_of_nat 34) "".
Definition BACKSLASH : string := String (ascii_of_nat 92) "".

(** [str.isspace] on one character, for code points below 256: the
    characters U+0009..U+000D, U+001C..U+0020, U+0085 and U+00A0. *)
Definition isspace (c : ascii) : bool :=
  let n := nat_of_ascii c in
  ((9 <=? n)%nat && (n <=? 13)%nat) || ((28 <=? n)%nat && (n <=? 32)%nat)
  || (n =? 133)%nat || (n =? 160)%nat.

Fixpoint lstrip (s : string) : string :=
  match s with
  | "" => ""
  | String c r => if isspace c then lstrip r else s
  end.

Definition rstrip (s : string) : string := String.rev (lstrip (String.rev s)).

(** [s.strip()] *)
Definition strip (s : string) : string := rstrip (lstrip s).

(** [s.split("\n\n")]: cut at every occurrence of two line feeds, scanning
    from the left; [acc] holds the current piece reversed. *)
Fixpoint split_go (s : string) (acc : string) : list string :=
  match s with
  | "" => [String.rev acc]
  | String c r =>
      match r with
      | String c' r' =>
          if (nat_of_ascii c =? 10)%nat && (nat_of_ascii c' =? 10)%nat
          then String.rev acc :: split_go r' ""
          else split_go r (String c acc)
      | "" => [String.rev (String c acc)]
      end
  end.

Definition split_blank (s : string) : list string := split_go s "".

(** [sep.join(l)] *)
Fixpoint join (sep : string) (l : list string) : string :=
  match l with
  | [] => ""
  | [x] => x
  | x :: r => x +:+ sep +:+ join sep r
  end.

(** [c.lower()] on ASCII letters, and [s.lower()] *)
Definition lower_ascii (c : ascii) : ascii :=
  let n := nat_of_ascii c in
  if (65 <=? n)%nat && (n <=? 90)%nat then ascii_of_nat (n + 32) else c.

Fixpoint lower (s : string) : string :=
  match s with
  | "" => ""
  | String c r => String (lower_ascii c) (lower r)
  end.

(** The values that reach [json.dump] in this program. *)
Inductive pyval : Type :=
| PNone
| PBool (b : bool)
| PInt (z : Z)
| PStr (s : string)
| PList (l : list pyval)
| PDict (d : list (string * pyval)).

Definition of_opt_str (o : option string) : pyval :=
  match o with None => PNone | Some s => PStr s end.

Definition of_opt_dict (o : option (list (string * pyval))) : pyval :=
  match o with None => PNone | Some d => PDict d end.

(** [bool(v)] *)
Definition truthy (v : pyval) : bool :=
  match v with
  | PNone => false
  | PBool b => b
  | PInt z => negb (z =? 0)
  | PStr s => negb (String.eqb s "")
  | PList l => match l with [] => false | _ => true end
  | PDict d => match d with [] => false | _ => true end
  end.

(** Truth value of an [Optional[str]] argument, as in [if image_path:]. *)
Definition truthy_opt (o : option string) : bool := truthy (of_opt_str o).

(** [d.get(k, default)] *)
Fixpoint dict_get (d : list (string * pyval)) (k : string) (default : pyval) : pyval :=
  match d with
  | [] => default
  | (k', v) :: r => if String.eqb k' k then v else dict_get r k default
  end.

(** [l[i]] with Python's negative indices: the position an index refers to
    in a list of length [n], if any. *)
Definition resolve_index (n : nat) (i : Z) : option nat :=
  if 0 <=? i then (if i <? Z.of_nat n then Some (Z.to_nat i) else None)
  else (if - Z.of_nat n <=? i then Some (Z.to_nat (Z.of_nat n + i)) else None).

(** *** [json.dumps(v, indent=2)] *)

Definition hex_digit (n : nat) : ascii :=
  if (n <? 10)%nat then ascii_of_nat (48 + n) else ascii_of_nat (87 + n).

Definition escape_char (c : ascii) : string :=
  let n := nat_of_ascii c in
  if (n =? 34)%nat then BACKSLASH +:+ DQUOTE
  else if (n =? 92)%nat then BACKSLASH +:+ BACKSLASH
  else if (n =? 10)%nat then BACKSLASH +:+ "n"
  else if (n =? 13)%nat then BACKSLASH +:+ "r"
  else if (n =? 9)%nat then BACKSLASH +:+ "t"
  else if (n =? 8)%nat then BACKSLASH +:+ "b"
  else if (n =? 12)%nat then BACKSLASH +:+ "f"
  else if (32 <=? n)%nat && (n <=? 126)%nat then String c ""
  else BACKSLASH +:+ "u00"
       +:+ String (hex_digit (n / 16)) (String (hex_digit (n mod 16)) "").

Fixpoint escape (s : string) : string :=
  match s with
  | "" => ""
  | String c r => escape_char c +:+ escape r
  end.

Definition json_str (s : string) : string := DQUOTE +:+ escape s +:+ DQUOTE.

Fixpoint spaces (n : nat) : string :=
  match n with O => "" | S k => String " " (spaces k) end.

(** A line break followed by the indentation of nesting depth [lvl]. *)
Definition newline_indent (lvl : nat) : string := LF +:+ spaces (2 * lvl).

Fixpoint dumps (lvl : nat) (v : pyval) : string :=
  match v with
  | PNone => "null"
  | PBool b => if b then "true" else "false"
  | PInt z => pretty z
  | PStr s => json_str s
  | PList l =>
      match l with
      | [] => "[]"
      | _ => "[" +:+ newline_indent (S lvl)
             +:+ join ("," +:+ newline_indent (S lvl)) (map (dumps (S lvl)) l)
             +:+ newline_indent lvl +:+ "]"
      end
  | PDict d =>
      match d with
      | [] => "{}"
      | _ => "{" +:+ newline_indent (S lvl)
             +:+ join ("," +:+ newline_indent (S lvl))
                   (map (fun kv => match kv with
                                   | (k, x) => json_str k +:+ ": " +:+ dumps (S lvl) x
                                   end) d)
             +:+ newline_indent lvl +:+ "}"
      end
  end.

(** The bytes [json.dump(v, f, indent=2)] writes. *)
Definition json_dump (v : pyval) : string := dumps 0 v.

(** *** Exceptions *)

Inductive exn_class : Set :=
| IndexError | TypeError | NameError | AttributeError | UnicodeDecodeError
| Exception.

Record exn : Type := Exn { exn_cls : exn_class; exn_msg : string }.

Inductive result (A : Type) : Type :=
| Ok (a : A)
| Raise (e : exn).
Arguments Ok {A} a.
Arguments Raise {A} e.

End Py.
Export Py.

(** ** The run state and the world it lives in *)

Module Run.

(** [@dataclass DocumentarySegment] *)
Record DocumentarySegment : Type := {
  text : string;
  prompt : string;
  image_path : option string;
  audio_path : option string;
  video_path : option string;
  feedback : option (list (string * pyval));
  metrics : option (list (string * pyval))
}.

(** The attributes of an [ExperimentTracker] object.  [wandb] tells whether
    the object holds a W&B run ([self.wandb] is not [None]). *)
Record ExperimentTracker : Type := {
  project_name : string;
  segments : list DocumentarySegment;
  run_id : string;
  has_error : bool;
  wandb : bool;
  storage_dir : string
}.

(** Calls that leave the process: the answer of each one is given by the
    oracle of the world. *)
Inductive request : Type :=
| ChatCompletion (model system user : string) (max_tokens : option Z)
    (temperature : option string)
| RunComfyPost (prompt_ negative_prompt : string) (width height : Z)
    (character_reference : string)
| HttpGet (url : string)
| ElevenLabs (text_ voice model : string)
| Ffmpeg (image audio output : string)
| OpenRead (path : string).

Inductive reply : Type :=
| Reply (payload : string)
| Fails (msg : string).

Inductive ui_msg : Type :=
| StError (msg : string)
| StWarning (msg : string)
| StSuccess (msg : string).

(** Everything a run reads or changes.  [store] holds the JSON documents
    under [experiments/] (the bytes on disk are [json_dump] of the
    document), [temp] the files under [temp/].  The [n]-th evaluation of
    [datetime.now().isoformat()] yields [clock n]; the [n]-th outside call
    is answered by [oracle n]. *)
Record World : Type := {
  tracker : ExperimentTracker;
  store : gmap string pyval;
  temp : gmap string string;
  clock : nat -> string;
  ticks : nat;
  oracle : nat -> request -> reply;
  calls : list request;
  sink : list pyval;
  sink_finished : bool;
  screen : list ui_msg
}.

Definition M (A : Type) : Type := World -> result A * World.

Definition ret {A} (a : A) : M A := fun w => (Ok a, w).

Definition bind {A B} (m : M A) (k : A -> M B) : M B :=
  fun w => match m w with
           | (Ok a, w') => k a w'
           | (Raise e, w') => (Raise e, w')
           end.

Definition raise {A} (e : exn) : M A := fun w => (Raise e, w).

(** [try: m  except Exception as e: h e] *)
Definition try_except {A} (m : M A) (h : exn -> M A) : M A :=
  fun w => match m w with
           | (Ok a, w') => (Ok a, w')
           | (Raise e, w') => h e w'
           end.

(** [try: m  finally: c] *)
Definition try_finally {A} (m : M A) (c : M unit) : M A :=
  fun w => match m w with
           | (r, w') => match c w' with
                        | (Ok _, w'') => (r, w'')
                        | (Raise e, w'') => (Raise e, w'')
                        end
           end.

#[global] Instance M_ret : MRet M := @ret.
#[global] Instance M_bind : MBind M := fun A B k m => bind m k.

(** [if c: m] *)
Definition when (c : bool) (m : M unit) : M unit := if c then m else ret tt.

End Run.
Export Run.

(** ** [processors/experiment_tracker.py] *)

Module Tracker.

(** *** Access to the world *)

Definition get_tracker : M ExperimentTracker := fun w => (Ok (tracker w), w).

Definition set_tracker (t : ExperimentTracker) : M unit :=
  fun w => (Ok tt,
            {| tracker := t; store := store w; temp := temp w; clock := clock w;
               ticks := ticks w; oracle := oracle w; calls := calls w;
               sink := sink w; sink_finished := sink_finished w;
               screen := screen w |}).

(** [datetime.now().isoformat()] *)
Definition now : M string :=
  fun w => (Ok (clock w (ticks w)),
            {| tracker := tracker w; store := store w; temp := temp w;
               clock := clock w; ticks := S (ticks w); oracle := oracle w;
               calls := calls w; sink := sink w;
               sink_finished := sink_finished w; screen := screen w |}).

(** [with open(path, 'w') as f: json.dump(doc, f, indent=2)] *)
Definition write_json (path : string) (doc : pyval) : M unit :=
  fun w => (Ok tt,
            {| tracker := tracker w; store := <[path := doc]> (store w);
               temp := temp w; clock := clock w; ticks := ticks w;
               oracle := oracle w; calls := calls w; sink := sink w;
               sink_finished := sink_finished w; screen := screen w |}).

(** [os.path.exists(path)] and [json.load] for a file under [experiments/] *)
Definition read_json (path : string) : M (option pyval) :=
  fun w => (Ok (store w !! path), w).

(** [self.wandb.log(record)] *)
Definition wandb_log (record : pyval) : M unit :=
  fun w => (Ok tt,
            {| tracker := tracker w; store := store w; temp := temp w;
               clock := clock w; ticks := ticks w; oracle := oracle w;
               calls := calls w; sink := sink w ++ [record];
               sink_finished := sink_finished w; screen := screen w |}).

(** [self.wandb.finish()] *)
Definition wandb_finish : M unit :=
  fun w => (Ok tt,
            {| tracker := tracker w; store := store w; temp := temp w;
               clock := clock w; ticks := ticks w; oracle := oracle w;
               calls := calls w; sink := sink w;
               sink_finished := true; screen := screen w |}).

(** [st.error], [st.warning], [st.success] *)
Definition st (m : ui_msg) : M unit :=
  fun w => (Ok tt,
            {| tracker := tracker w; store := store w; temp := temp w;
               clock := clock w; ticks := ticks w; oracle := oracle w;
               calls := calls w; sink := sink w;
               sink_finished := sink_finished w; screen := screen w ++ [m] |}).

(** [wandb.Image(path)] and [wandb.Audio(path)] inside [update_segment]: the
    module never binds the name [wandb] (the only import is local to
    [_init_wandb]), so evaluating it raises [NameError]. *)
Definition wandb_media (path : string) : M pyval :=
  raise (Exn NameError "name 'wandb' is not defined").

(** [os.path.join(dir, name)] *)
Definition path_join (dir name : string) : string := dir +:+ "/" +:+ name.

(** *** Assignments to attributes *)

Definition set_segments (l : list DocumentarySegment) (t : ExperimentTracker)
  : ExperimentTracker :=
  {| project_name := project_name t; segments := l; run_id := run_id t;
     has_error := has_error t; wandb := wandb t; storage_dir := storage_dir t |}.

Definition set_has_error (b : bool) (t : ExperimentTracker) : ExperimentTracker :=
  {| project_name := project_name t; segments := segments t; run_id := run_id t;
     has_error := b; wandb := wandb t; storage_dir := storage_dir t |}.

Definition set_image_path (p : option string) (s : DocumentarySegment)
  : DocumentarySegment :=
  {| text := text s; prompt := prompt s; image_path := p;
     audio_path := audio_path s; video_path := video_path s;
     feedback := feedback s; metrics := metrics s |}.

Definition set_audio_path (p : option string) (s : DocumentarySegment)
  : DocumentarySegment :=
  {| text := text s; prompt := prompt s; image_path := image_path s;
     audio_path := p; video_path := video_path s;
     feedback := feedback s; metrics := metrics s |}.

Definition set_video_path (p : option string) (s : DocumentarySegment)
  : DocumentarySegment :=
  {| text := text s; prompt := prompt s; image_path := image_path s;
     audio_path := audio_path s; video_path := p;
     feedback := feedback s; metrics := metrics s |}.

Definition set_feedback (f : option (list (string * pyval)))
  (s : DocumentarySegment) : DocumentarySegment :=
  {| text := text s; prompt := prompt s; image_path := image_path s;
     audio_path := audio_path s; video_path := video_path s;
     feedback := f; metrics := metrics s |}.

(** [segment.attr = value] where [segment] is the object at position [k] of
    [self.segments]: the list element itself changes. *)
Definition assign_segment (k : nat) (f : DocumentarySegment -> DocumentarySegment)
  : M unit :=
  t ← get_tracker;
  set_tracker (set_segments (alter f k (segments t)) t).

(** [self.segments[segment_idx]]: the position of the object, or
    [IndexError]. *)
Definition segment_at (segment_idx : Z) : M nat :=
  t ← get_tracker;
  match resolve_index (length (segments t)) segment_idx with
  | Some k => mret k
  | None => raise (Exn IndexError "list index out of range")
  end.

(** *** The methods *)

(** [ExperimentTracker.__init__], given the rendering of the creation time
    and whether [_init_wandb] obtained a run. *)
Definition __init__ (project_name_ run_id_ : string) (wandb_ : bool)
  : ExperimentTracker :=
  {| project_name := project_name_; segments := []; run_id := run_id_;
     has_error := false; wandb := wandb_;
     storage_dir := path_join "experiments" run_id_ |}.

Definition segment_dict (segment : DocumentarySegment) : pyval :=
  PDict [("text", PStr (text segment));
         ("prompt", PStr (prompt segment));
         ("image_path", of_opt_str (image_path segment));
         ("audio_path", of_opt_str (audio_path segment));
         ("video_path", of_opt_str (video_path segment));
         ("feedback", of_opt_dict (feedback segment));
         ("metrics", of_opt_dict (metrics segment))].

(** The document [_save_local_state] writes at time stamp [ts]. *)
Definition state_doc (t : ExperimentTracker) (ts : string) : pyval :=
  PDict [("run_id", PStr (run_id t));
         ("timestamp", PStr ts);
         ("segments", PList (map segment_dict (segments t)))].

Definition _save_local_state : M unit :=
  t ← get_tracker;
  let state_path := path_join (storage_dir t) "state.json" in
  ts ← now;
  write_json state_path (state_doc t ts).

Definition start_segment (text_ prompt_ : string) : M Z :=
  t ← get_tracker;
  let segment := {| text := text_; prompt := prompt_; image_path := None;
                    audio_path := None; video_path := None;
                    feedback := None; metrics := None |} in
  set_tracker (set_segments (segments t ++ [segment]) t);;
  _save_local_state;;
  t ← get_tracker;
  when (wandb t)
    (wandb_log (PDict [("segment_text", PStr text_);
                       ("segment_prompt", PStr prompt_);
                       ("segment_number",
                        PInt (Z.of_nat (length (segments t)) - 1))]));;
  mret (Z.of_nat (length (segments t)) - 1).

Definition update_segment (segment_idx : Z)
  (image_path_ audio_path_ video_path_ : option string) : M unit :=
  k ← segment_at segment_idx;
  t ← get_tracker;
  when (truthy_opt image_path_)
    (assign_segment k (set_image_path image_path_);;
     when (wandb t)
       (try_except
          (v ← wandb_media (default "" image_path_);
           wandb_log (PDict [("segment_" +:+ pretty segment_idx +:+ "_image", v)]))
          (fun _ => mret tt)));;
  when (truthy_opt audio_path_)
    (assign_segment k (set_audio_path audio_path_);;
     when (wandb t)
       (try_except
          (v ← wandb_media (default "" audio_path_);
           wandb_log (PDict [("segment_" +:+ pretty segment_idx +:+ "_audio", v)]))
          (fun _ => mret tt)));;
  when (truthy_opt video_path_)
    (assign_segment k (set_video_path video_path_);;
     when (wandb t)
       (wandb_log (PDict [("segment_" +:+ pretty segment_idx +:+ "_video",
                           of_opt_str video_path_)])));;
  _save_local_state.

(** A call [tracker.update_segment(segment_idx, k1=v1, ...)].  Python binds
    the keywords to the parameters of the signature before the body runs: a
    keyword that names no parameter raises [TypeError], and the body is not
    entered.  The signature has [image_path], [audio_path] and [video_path],
    all defaulting to [None]. *)
Fixpoint bind_keywords (kwargs : list (string * option string))
  (bound : option string * option string * option string)
  : result (option string * option string * option string) :=
  match kwargs with
  | [] => Ok bound
  | (kw, v) :: rest =>
      let '(i, a, p) := bound in
      if String.eqb kw "image_path" then bind_keywords rest (v, a, p)
      else if String.eqb kw "audio_path" then bind_keywords rest (i, v, p)
      else if String.eqb kw "video_path" then bind_keywords rest (i, a, v)
      else if String.eqb kw "segment_idx" then
        Raise (Exn TypeError
          "ExperimentTracker.update_segment() got multiple values for argument 'segment_idx'")
      else
        Raise (Exn TypeError
          ("ExperimentTracker.update_segment() got an unexpected keyword argument '"
           +:+ kw +:+ "'"))
  end.

Definition call_update_segment (segment_idx : Z)
  (kwargs : list (string * option string)) : M unit :=
  match bind_keywords kwargs (None, None, None) with
  | Ok (i, a, p) => update_segment segment_idx i a p
  | Raise e => raise e
  end.

(** [type(v).__name__] *)
Definition type_name (v : pyval) : string :=
  match v with
  | PNone => "NoneType" | PBool _ => "bool" | PInt _ => "int"
  | PStr _ => "str" | PList _ => "list" | PDict _ => "dict"
  end.

Definition log_error (error_message : string) : M unit :=
  t ← get_tracker;
  set_tracker (set_has_error true t);;
  ts ← now;
  let error_data := PDict [("error", PStr error_message); ("timestamp", PStr ts)] in
  let error_path := path_join (storage_dir t) "errors.json" in
  try_except
    (existing ← read_json error_path;
     errors ← match existing with
              | None => mret []
              | Some (PList l) => mret l
              | Some v => raise (Exn AttributeError
                            ("'" +:+ type_name v +:+ "' object has no attribute 'append'"))
              end;
     write_json error_path (PList (errors ++ [error_data])))
    (fun e => st (StError ("Failed to log error locally: " +:+ exn_msg e)));;
  when (wandb t)
    (try_except
       (ts' ← now;
        wandb_log (PDict [("error", PStr error_message);
                          ("error_timestamp", PStr ts')]))
       (fun e => st (StError ("Failed to log error to W&B: " +:+ exn_msg e)))).

Definition log_metrics (metrics_ : list (string * pyval)) : M unit :=
  t ← get_tracker;
  let metrics_path := path_join (storage_dir t) "metrics.json" in
  try_except
    (write_json metrics_path (PDict metrics_))
    (fun e => st (StError ("Failed to save metrics locally: " +:+ exn_msg e)));;
  when (wandb t)
    (try_except
       (wandb_log (PDict metrics_))
       (fun e => st (StError ("Failed to log metrics to W&B: " +:+ exn_msg e)))).

Definition add_feedback (segment_idx : Z) (feedback_ : list (string * pyval))
  : M bool :=
  k ← segment_at segment_idx;
  assign_segment k (set_feedback (Some feedback_));;
  _save_local_state;;
  t ← get_tracker;
  when (wandb t)
    (wandb_log (PDict [("segment_" +:+ pretty segment_idx +:+ "_feedback",
                        PDict feedback_)]));;
  mret (truthy (dict_get feedback_ "needs_regeneration" (PBool false))).

Definition save_experiment : M unit :=
  _save_local_state;;
  t ← get_tracker;
  when (wandb t)
    (try_except
       (ts ← now;
        wandb_log (PDict [("run_id", PStr (run_id t));
                          ("timestamp", PStr ts);
                          ("total_segments", PInt (Z.of_nat (length (segments t))));
                          ("has_error", PBool (has_error t))]))
       (fun e => st (StWarning ("Failed to save final state to W&B: " +:+ exn_msg e)))).

Definition _cleanup : M unit :=
  t ← get_tracker;
  when (wandb t) (try_except wandb_finish (fun _ => mret tt)).

Definition finish : M unit :=
  save_experiment;;
  _cleanup.

End Tracker.
Export Tracker.

(** ** [processors/document_processor.py] *)

Module Documents.

(** What [PdfReader] makes of a file. *)
Inductive pdf_outcome : Type :=
| PdfFails (e : exn)
| PdfDoc (is_encrypted decrypts : bool) (pages : list string).

(** A [Path] together with what each way of reading the file yields:
    [read_utf8] is [None] when decoding raises [UnicodeDecodeError]; opening
    the file may raise [open_fails] instead. *)
Record Path : Type := {
  path_str : string;
  suffix : string;
  open_fails : option exn;
  read_utf8 : option string;
  read_latin1 : string;
  read_pdf : pdf_outcome
}.

(** The world once the outside call [r] has been issued. *)
Definition record_call (r : request) (w : World) : World :=
  {| tracker := tracker w; store := store w; temp := temp w;
     clock := clock w; ticks := ticks w; oracle := oracle w;
     calls := calls w ++ [r]; sink := sink w;
     sink_finished := sink_finished w; screen := screen w |}.

(** An outside call: recorded in [calls], answered by the oracle; a call
    that fails raises an exception that carries the failure message. *)
Definition request_ (r : request) : M string :=
  fun w =>
    match oracle w (length (calls w)) r with
    | Reply payload => (Ok payload, record_call r w)
    | Fails msg => (Raise (Exn Exception msg), record_call r w)
    end.

Definition extract_text_from_pdf (file_path : Path) : M string :=
  try_except
    (match open_fails file_path with
     | Some e => raise e
     | None =>
         match read_pdf file_path with
         | PdfFails e => raise e
         | PdfDoc is_encrypted decrypts pages =>
             when is_encrypted
               (if decrypts then mret tt
                else raise (Exn Exception
                              ("Could not decrypt PDF: " +:+ path_str file_path)));;
             let text_ := foldl (fun acc page => acc +:+ page +:+ LF +:+ LF) "" pages in
             if String.eqb (strip text_) "" then
               raise (Exn Exception
                        ("No text could be extracted from PDF: " +:+ path_str file_path))
             else mret text_
         end
     end)
    (fun e => raise (Exn Exception
                       ("Error processing PDF " +:+ path_str file_path
                        +:+ ": " +:+ exn_msg e))).

(** The body of the reading loop for one file. *)
Definition read_document (file_path : Path) : M string :=
  if String.eqb (lower (suffix file_path)) ".pdf" then
    extract_text_from_pdf file_path
  else
    match open_fails file_path with
    | Some e => raise e
    | None =>
        match read_utf8 file_path with
        | Some text_ => mret text_
        | None => mret (read_latin1 file_path)
        end
    end.

Fixpoint combine_documents (file_paths : list Path) (combined_text : string)
  : M string :=
  match file_paths with
  | [] => mret combined_text
  | file_path :: rest =>
      text_ ← read_document file_path;
      combine_documents rest (combined_text +:+ text_ +:+ LF +:+ LF)
  end.

Definition segment_system_prompt : string :=
  "You are a true crime documentary writer. " +:+ LF
  +:+ "                Create exactly 10 one-minute segments that tell a compelling story."
  +:+ LF
  +:+ "                Each segment should be self-contained and dramatically paced.".

Definition placeholder : string := "[Segment content to be generated]".

(** [[s.strip() for s in content.split("\n\n") if s.strip()]] *)
Definition candidates (content : string) : list string :=
  filter (fun s => s ≠ "") (map strip (split_blank content)).

(** Padding and truncation to 10 segments. *)
Definition ensure_ten (segments_ : list string) : list string :=
  let padded :=
    if (length segments_ <? 10)%nat
    then (segments_ ++ replicate (10 - length segments_) placeholder)%list
    else segments_ in
  take 10 padded.

Definition empty_input_error : exn :=
  Exn Exception "No content could be extracted from the uploaded documents".

Definition process_documents (file_paths : list Path) : M (list string) :=
  combined_text ← combine_documents file_paths "";
  if String.eqb (strip combined_text) "" then raise empty_input_error
  else
    try_except
      (content ← request_
         (ChatCompletion "gpt-4-turbo-preview" segment_system_prompt
            ("Create 10 one-minute segments from this story: " +:+ combined_text)
            (Some 2000) (Some "0.7"));
       let segments_ := candidates content in
       match segments_ with
       | [] => raise (Exn Exception "No segments were generated")
       | _ => mret (ensure_ten segments_)
       end)
      (fun e => raise (Exn Exception
                         ("Failed to process documents: " +:+ exn_msg e))).

End Documents.
Export Documents.

(** ** The generators and [main.py] *)

Module Pipeline.

(** [with open(path, "wb") as f: f.write(content)] for a file under [temp/] *)
Definition write_temp (path content : string) : M unit :=
  fun w => (Ok tt,
            {| tracker := tracker w; store := store w;
               temp := <[path := content]> (temp w); clock := clock w;
               ticks := ticks w; oracle := oracle w; calls := calls w;
               sink := sink w; sink_finished := sink_finished w;
               screen := screen w |}).

(** [shutil.rmtree(temp_dir)] *)
Definition rmtree_temp : M unit :=
  fun w => (Ok tt,
            {| tracker := tracker w; store := store w; temp := ∅;
               clock := clock w; ticks := ticks w; oracle := oracle w;
               calls := calls w; sink := sink w;
               sink_finished := sink_finished w; screen := screen w |}).

(** [await asyncio.sleep(seconds)]: no effect on the world. *)
Definition sleep (seconds : Z) : M unit := mret tt.

Definition sd_system_prompt : string :=
  "You are a Stable Diffusion prompt engineer." +:+ LF
  +:+ "            Create detailed prompts that will generate consistent, dramatic true crime documentary scenes."
  +:+ LF
  +:+ "            Focus on mood, lighting, and composition.".

(** The completion request [generate_sd_prompts] sends for a segment. *)
Definition sd_request (segment : string) : request :=
  ChatCompletion "gpt-4-turbo-preview" sd_system_prompt
    ("Create a cinematic SD prompt for this scene: " +:+ segment) None None.

(** [processors/image_generator.py] *)
Definition generate_sd_prompts (segment : string) : M string :=
  request_ (sd_request segment).

Fixpoint generate_images_from (i : nat) (segments_ : list string)
  (character_image_path : string) (image_paths : list string)
  : M (list string) :=
  match segments_ with
  | [] => mret image_paths
  | segment :: rest =>
      prompt_ ← generate_sd_prompts segment;
      image_url ← request_
        (RunComfyPost prompt_ "blurry, low quality, bad composition"
           1080 1920 character_image_path);
      let image_path_ := "temp/image_" +:+ pretty i +:+ ".png" in
      write_temp image_path_ "";;
      content ← request_ (HttpGet image_url);
      write_temp image_path_ content;;
      sleep 1;;
      generate_images_from (S i) rest character_image_path
        (image_paths ++ [image_path_])
  end.

Definition generate_images (segments_ : list string)
  (character_image_path : string) : M (list string) :=
  generate_images_from 0 segments_ character_image_path [].

(** [processors/audio_generator.py] *)
Fixpoint generate_voiceovers_from (i : nat) (segments_ : list string)
  (voice_id : string) (audio_paths : list string) : M (list string) :=
  match segments_ with
  | [] => mret audio_paths
  | segment :: rest =>
      audio ← request_ (ElevenLabs segment voice_id "eleven_multilingual_v2");
      let audio_path_ := "temp/audio_" +:+ pretty i +:+ ".mp3" in
      write_temp audio_path_ audio;;
      sleep 1;;
      generate_voiceovers_from (S i) rest voice_id (audio_paths ++ [audio_path_])
  end.

Definition generate_voiceovers (segments_ : list string) (voice_id : string)
  : M (list string) :=
  generate_voiceovers_from 0 segments_ voice_id [].

(** [processors/video_generator.py]: the loop runs over
    [zip(image_paths, audio_paths)]. *)
Fixpoint create_video_segments_from (i : nat) (pairs : list (string * string))
  (video_paths : list string) : M (list string) :=
  match pairs with
  | [] => mret video_paths
  | (image_path_, audio_path_) :: rest =>
      let output_path := "temp/segment_" +:+ pretty i +:+ ".mp4" in
      request_ (Ffmpeg image_path_ audio_path_ output_path);;
      create_video_segments_from (S i) rest (video_paths ++ [output_path])
  end.

Definition create_video_segments (image_paths audio_paths : list string)
  : M (list string) :=
  create_video_segments_from 0 (zip image_paths audio_paths) [].

(** *** [main.py] *)

Inductive voice : Set := Rachel | Drew | Charlotte.

(** [voice_options[selected_voice]] *)
Definition voice_options (v : voice) : string :=
  match v with
  | Rachel => "21m00Tcm4TlvDq8ikWAM"
  | Drew => "29vD33N1CtxCmqQRPOHJ"
  | Charlotte => "XB0fDUnXU5powFXDhCwa"
  end.

(** An uploaded file: its name, its bytes, and what reading it back from
    [temp/] yields. *)
Record upload : Type := {
  name : string;
  buffer : string;
  saved : Path
}.

(** The values of the four feedback widgets of a segment. *)
Record feedback_form : Type := {
  text_rating : Z;
  prompt_rating : Z;
  revised_prompt : string;
  comments : string
}.

(** What the page returns to the script in one execution. *)
Record UI : Type := {
  generate_clicked : bool;
  uploaded_files : list upload;
  character_image : option upload;
  selected_voice : voice;
  form : nat -> feedback_form;
  submit_clicked : nat -> bool
}.

Definition feedback_dict (f : feedback_form) : list (string * pyval) :=
  [("text_rating", PInt (text_rating f));
   ("prompt_rating", PInt (prompt_rating f));
   ("revised_prompt", PStr (revised_prompt f));
   ("comments", PStr (comments f))].

(** [xs[0] if xs else None] *)
Definition first_or_none (xs : list string) : option string := head xs.

(** The feedback expander of segment [i] (lines 108-133). *)
Definition collect_feedback (ui : UI) (i : nat) : M unit :=
  let feedback_ := feedback_dict (form ui i) in
  when (submit_clicked ui i)
    (needs_regeneration ← add_feedback (Z.of_nat i) feedback_;
     when needs_regeneration
       (st (StWarning "Regenerating content with revised prompt...")))
       (* Regenerate content logic would go here *).

(** The body of the loop over [enumerate(segments)] (lines 69-133); it
    yields the value of [video_paths]. *)
Definition process_segment (ui : UI) (char_image_path : string)
  (i : nat) (segment : string) : M (list string) :=
  segment_idx ← start_segment segment "";
  prompt_ ← generate_sd_prompts segment;
  call_update_segment segment_idx [("prompt", Some prompt_)];;
  image_paths ← generate_images [segment] char_image_path;
  audio_paths ← generate_voiceovers [segment] (voice_options (selected_voice ui));
  video_paths ← create_video_segments image_paths audio_paths;
  call_update_segment segment_idx
    [("image_path", first_or_none image_paths);
     ("audio_path", first_or_none audio_paths);
     ("video_path", first_or_none video_paths)];;
  collect_feedback ui i;;
  mret video_paths.

(** The loop: [video_paths] is the value left by the last iteration, if
    any. *)
Fixpoint process_segments (ui : UI) (char_image_path : string) (i : nat)
  (segments_ : list string) (video_paths : option (list string))
  : M (option (list string)) :=
  match segments_ with
  | [] => mret video_paths
  | segment :: rest =>
      v ← process_segment ui char_image_path i segment;
      process_segments ui char_image_path (S i) rest (Some v)
  end.

Fixpoint save_uploads (files : list upload) (file_paths : list Path)
  : M (list Path) :=
  match files with
  | [] => mret file_paths
  | file :: rest =>
      write_temp (path_join "temp" (name file)) (buffer file);;
      save_uploads rest (file_paths ++ [saved file])
  end.

Fixpoint offer_downloads (video_paths : list string) : M unit :=
  match video_paths with
  | [] => mret tt
  | video_path_ :: rest =>
      request_ (OpenRead video_path_);;
      offer_downloads rest
  end.

(** Lines 46-61 of [main]: the uploads are written under [temp/]. *)
Definition save_inputs (ui : UI) (character_image_ : upload)
  : M (list Path * string) :=
  file_paths ← save_uploads (uploaded_files ui) [];
  let char_image_path := path_join "temp" (name character_image_) in
  write_temp char_image_path (buffer character_image_);;
  mret (file_paths, char_image_path).

(** The [try] block of [main] (lines 46-147). *)
Definition generate (ui : UI) (character_image_ : upload) : M unit :=
  inputs ← save_inputs ui character_image_;
  let file_paths := inputs.1 in
  let char_image_path := inputs.2 in
  segments_ ← process_documents file_paths;
  last_video_paths ← process_segments ui char_image_path 0 segments_ None;
  save_experiment;;
  st (StSuccess "Processing complete!");;
  match last_video_paths with
  | Some video_paths => offer_downloads video_paths
  | None => raise (Exn NameError
              "cannot access local variable 'video_paths' where it is not associated with a value")
  end.

Definition main (ui : UI) : M unit :=
  match generate_clicked ui, uploaded_files ui, character_image ui with
  | true, _ :: _, Some character_image_ =>
      try_finally
        (try_except
           (generate ui character_image_)
           (fun e =>
              let error_message := "An error occurred: " +:+ exn_msg e in
              st (StError error_message);;
              log_error error_message))
        (try_except rmtree_temp
           (fun cleanup_error =>
              st (StWarning ("Failed to clean up temporary files: "
                             +:+ exn_msg cleanup_error)));;
         try_except (save_experiment;; finish)
           (fun save_error =>
              st (StWarning ("Failed to save experiment data: "
                             +:+ exn_msg save_error))))
  | _, _, _ => mret tt
  end.

End Pipeline.
Export Pipeline.

(** ** Vocabulary of the properties *)

Module Props.

(** The combined effect on one segment of the three guarded assignments of
    [update_segment]. *)
Definition apply_paths (i a v : option string) (s : DocumentarySegment)
  : DocumentarySegment :=
  let s1 := if truthy_opt i then set_image_path i s else s in
  let s2 := if truthy_opt a then set_audio_path a s1 else s1 in
  if truthy_opt v then set_video_path v s2 else s2.

(** An index is in range for a list of length [n], as Python reads it. *)
Definition in_range (n : nat) (i : Z) : Prop := - Z.of_nat n <= i < Z.of_nat n.

Definition index_error : exn := Exn IndexError "list index out of range".

(** The path of the state file of a tracker. *)
Definition state_path (t : ExperimentTracker) : string :=
  path_join (storage_dir t) "state.json".

Definition errors_path (t : ExperimentTracker) : string :=
  path_join (storage_dir t) "errors.json".

(** A world around a tracker, with nothing stored and nothing called yet. *)
Definition world_of (t : ExperimentTracker) (clk : nat -> string)
  (orc : nat -> request -> reply) : World :=
  {| tracker := t; store := ∅; temp := ∅; clock := clk; ticks := 0;
     oracle := orc; calls := []; sink := []; sink_finished := false;
     screen := [] |}.

(** The calls a client can make on the tracker. *)
Inductive op : Type :=
| OStart (text_ prompt_ : string)
| OUpdate (segment_idx : Z) (kwargs : list (string * option string))
| OLogError (error_message : string)
| OLogMetrics (metrics_ : list (string * pyval))
| OFeedback (segment_idx : Z) (feedback_ : list (string * pyval))
| OSave
| OFinish.

Definition run_op (o : op) : M unit :=
  match o with
  | OStart text_ prompt_ => start_segment text_ prompt_;; mret tt
  | OUpdate segment_idx kwargs => call_update_segment segment_idx kwargs
  | OLogError error_message => log_error error_message
  | OLogMetrics metrics_ => log_metrics metrics_
  | OFeedback segment_idx feedback_ => add_feedback segment_idx feedback_;; mret tt
  | OSave => save_experiment
  | OFinish => finish
  end.

(** The world after a sequence of calls; a call that raises leaves the
    world it reached and the client goes on. *)
Fixpoint run_ops (ops : list op) (w : World) : World :=
  match ops with
  | [] => w
  | o :: rest => run_ops rest (snd (run_op o w))
  end.

(** Whether a call addresses the segment at position [i] of tracker [t]. *)
Definition targets (i : nat) (o : op) (t : ExperimentTracker) : bool :=
  match o with
  | OUpdate segment_idx _ | OFeedback segment_idx _ =>
      bool_decide (resolve_index (length (segments t)) segment_idx = Some i)
  | _ => false
  end.

(** No call of the sequence addresses position [i]. *)
Fixpoint never_targets (i : nat) (ops : list op) (w : World) : bool :=
  match ops with
  | [] => true
  | o :: rest =>
      negb (targets i o (tracker w)) && never_targets i rest (snd (run_op o w))
  end.

Definition is_log_error (o : op) : bool :=
  match o with OLogError _ => true | _ => false end.

(** [start_segment] called on each pair of a list, collecting the indices. *)
Fixpoint start_segments (l : list (string * string)) : M (list Z) :=
  match l with
  | [] => mret []
  | (text_, prompt_) :: rest =>
      i ← start_segment text_ prompt_;
      js ← start_segments rest;
      mret (i :: js)
  end.


(** A tracker with one segment started, in a world where every outside
    call fails and the clock advances at each reading. *)
Definition one_segment_world : World :=
  world_of
    (set_segments
       [{| text := "The night of the fire"; prompt := ""; image_path := None;
           audio_path := None; video_path := None; feedback := None;
           metrics := None |}]
       (__init__ "Crime-Doc-Generator" "20240101_120000" false))
    (fun n => "2024-01-01T12:00:0" +:+ pretty n)
    (fun _ _ => Fails "offline").

(** The attributes of the tracker after a call, as a function of the
    attributes before it. *)
Definition op_effect (o : op) (t : ExperimentTracker) : ExperimentTracker :=
  match o with
  | OStart text_ prompt_ =>
      set_segments
        (segments t ++ [{| text := text_; prompt := prompt_; image_path := None;
                           audio_path := None; video_path := None;
                           feedback := None; metrics := None |}]) t
  | OUpdate segment_idx kwargs =>
      match bind_keywords kwargs (None, None, None),
            resolve_index (length (segments t)) segment_idx with
      | Ok (i, a, v), Some k =>
          set_segments (alter (apply_paths i a v) k (segments t)) t
      | _, _ => t
      end
  | OLogError _ => set_has_error true t
  | OFeedback segment_idx feedback_ =>
      match resolve_index (length (segments t)) segment_idx with
      | Some k => set_segments (alter (set_feedback (Some feedback_)) k (segments t)) t
      | None => t
      end
  | OLogMetrics _ | OSave | OFinish => t
  end.

(** The segment [start_segment] creates. *)
Definition new_segment (tp : string * string) : DocumentarySegment :=
  {| text := tp.1; prompt := tp.2; image_path := None; audio_path := None;
     video_path := None; feedback := None; metrics := None |}.

(** A tracker just created, in the same surroundings. *)
Definition fresh_world : World :=
  world_of (__init__ "Crime-Doc-Generator" "20240101_120000" false)
    (fun n => "2024-01-01T12:00:0" +:+ pretty n)
    (fun _ _ => Fails "offline").

(** The bytes on disk under [experiments/]. *)
Definition durable (w : World) : gmap string string := json_dump <$> store w.

(** C4 as the specification states it: two saves in a row leave the same
    bytes on disk. *)
Definition save_idempotent_claim (w : World) : Prop :=
  let w1 := snd (save_experiment w) in
  let w2 := snd (save_experiment w1) in
  durable w2 = durable w1.

(** Reading [p] succeeds with [text_], whatever the world. *)
Definition readable (p : Path) (text_ : string) : Prop :=
  forall w, read_document p w = (Ok text_, w).

(** The combined text of documents read in order. *)
Definition combined (texts : list string) : string :=
  foldl (fun acc text_ => acc +:+ text_ +:+ LF +:+ LF) "" texts.

(** The completion request [process_documents] sends. *)
Definition segment_request (combined_text : string) : request :=
  ChatCompletion "gpt-4-turbo-preview" segment_system_prompt
    ("Create 10 one-minute segments from this story: " +:+ combined_text)
    (Some 2000) (Some "0.7").

(** A text file on disk, for the instances below. *)
Definition txt_path (name_ text_ : string) : Path :=
  {| path_str := "temp/" +:+ name_; suffix := ".txt"; open_fails := None;
     read_utf8 := Some text_; read_latin1 := text_;
     read_pdf := PdfFails (Exn Exception "EOF marker not found") |}.

(** A completion with two candidates, and one with ten. *)
Definition two_part_reply : string :=
  "  A body is found. " +:+ LF +:+ LF +:+ LF +:+ LF +:+ "The trial begins.".

(** A fresh tracker in a world where the segmentation request is answered
    with [content] and every other outside call fails. *)
Definition replying_world (content : string) : World :=
  world_of (__init__ "Crime-Doc-Generator" "20240101_120000" false)
    (fun n => "2024-01-01T12:00:0" +:+ pretty n)
    (fun _ r => match r with
                | ChatCompletion _ _ _ (Some _) _ => Reply content
                | _ => Fails "offline"
                end).

(** What [update_segment(segment_idx, prompt=prompt)] raises. *)
Definition prompt_type_error : exn :=
  Exn TypeError
    "ExperimentTracker.update_segment() got an unexpected keyword argument 'prompt'".

(** The source has no status field: a segment counts as completed when its
    three artifacts are recorded. *)
Definition completed (s : DocumentarySegment) : Prop :=
  is_Some (image_path s) /\ is_Some (audio_path s) /\ is_Some (video_path s).

(** The segment at position [j] has been taken through all its stages. *)
Definition processed (w : World) (j : nat) : Prop :=
  exists s, segments (tracker w) !! j = Some s /\ completed s.

(** C1 as the specification states it, for a run in which a stage of
    segment [k] fails: every other segment is processed through all its
    stages and the run is flagged. *)
Definition isolation_claim_at (ui : UI) (w : World) (k : nat) : Prop :=
  let wf := snd (main ui w) in
  (forall j, j <> k -> (j < 10)%nat -> processed wf j)
  /\ has_error (tracker wf) = true.

Definition ten_part_reply : string :=
  join (LF +:+ LF)
    ["One."; "Two."; "Three."; "Four."; "Five.";
     "Six."; "Seven."; "Eight."; "Nine."; "Ten."].

(** A page on which one text file and a character image are uploaded and
    the button is pressed. *)
Definition case_ui : UI :=
  {| generate_clicked := true;
     uploaded_files :=
       [{| name := "case.txt"; buffer := "The case.";
           saved := txt_path "case.txt" "The case." |}];
     character_image :=
       Some {| name := "face.png"; buffer := "PNG";
               saved := txt_path "face.png" "PNG" |};
     selected_voice := Rachel;
     form := fun _ => {| text_rating := 3; prompt_rating := 3;
                         revised_prompt := ""; comments := "" |};
     submit_clicked := fun _ => false |}.

Definition face : upload :=
  {| name := "face.png"; buffer := "PNG"; saved := txt_path "face.png" "PNG" |}.

(** The outside calls [generate_images] makes for a list of segments when
    the calls made before number [n]: for each segment a completion
    request, then the image request carrying the reply, then the download;
    a failing call ends the list. *)
Fixpoint image_calls (orc : nat -> request -> reply) (n : nat)
  (segments_ : list string) (c : string) : list request :=
  match segments_ with
  | [] => []
  | seg :: rest =>
      sd_request seg ::
      match orc n (sd_request seg) with
      | Fails _ => []
      | Reply p =>
          let post := RunComfyPost p "blurry, low quality, bad composition"
                        1080 1920 c in
          post ::
          match orc (S n) post with
          | Fails _ => []
          | Reply url =>
              HttpGet url ::
              match orc (S (S n)) (HttpGet url) with
              | Fails _ => []
              | Reply _ => image_calls orc (S (S (S n))) rest c
              end
          end
      end
  end.

(** The prompts of the image requests of a list of calls, in order. *)
Definition posted_prompts (l : list request) : list string :=
  omap (fun r => match r with
                 | RunComfyPost p _ _ _ _ => Some p
                 | _ => None
                 end) l.

(** C6 as the specification states it, for a segment at position [k]
    addressed by [idx], a feedback record [fb] whose revised prompt is [x],
    and a later image generation for the segment with character image
    [c]: the call returns [True], the segment is no longer completed, and
    the image request of the later pass carries [x]. *)
Definition regeneration_claim (w : World) (idx : Z) (k : nat)
  (fb : list (string * pyval)) (x c : string) : Prop :=
  let r := add_feedback idx fb w in
  fst r = Ok true
  /\ (exists s, segments (tracker (snd r)) !! k = Some s /\ ~ completed s)
  /\ (forall s, segments (tracker (snd r)) !! k = Some s ->
        posted_prompts (calls (snd (generate_images [text s] c (snd r))))
        = posted_prompts (calls (snd r)) ++ [x]).

(** A world in which every outside call succeeds; the [n]-th call, when
    it is a completion request for a prompt, is answered with a prompt
    that carries [n]. *)
Definition nominal_oracle (content : string) (n : nat) (r : request) : reply :=
  match r with
  | ChatCompletion _ _ _ (Some _) _ => Reply content
  | ChatCompletion _ _ _ None _ => Reply ("prompt #" +:+ pretty n)
  | RunComfyPost _ _ _ _ _ => Reply "https://cdn.runcomfy.com/out.png"
  | HttpGet _ => Reply "PNG"
  | ElevenLabs _ _ _ => Reply "MP3"
  | Ffmpeg _ _ _ => Reply ""
  | OpenRead _ => Reply "MP4"
  end.

Definition nominal_world (content : string) : World :=
  world_of (__init__ "Crime-Doc-Generator" "20240101_120000" false)
    (fun n => "2024-01-01T12:00:0" +:+ pretty n)
    (nominal_oracle content).

(** A segment with all its artifacts, and a tracker that holds it. *)
Definition done_segment : DocumentarySegment :=
  {| text := "One."; prompt := ""; image_path := Some "temp/image_0.png";
     audio_path := Some "temp/audio_0.mp3";
     video_path := Some "temp/segment_0.mp4";
     feedback := None; metrics := None |}.

Definition done_world : World :=
  world_of
    (set_segments [done_segment]
       (__init__ "Crime-Doc-Generator" "20240101_120000" false))
    (fun n => "2024-01-01T12:00:0" +:+ pretty n)
    (nominal_oracle ten_part_reply).

(** Feedback that asks for regeneration with the revised prompt X. *)
Definition regenerate_x : list (string * pyval) :=
  [("needs_regeneration", PBool true); ("revised_prompt", PStr "X")].

#[global] Instance request_eq_dec : EqDecision request.
Proof. solve_decision. Defined.

(** C7 as the specification states it, for a run of [main] whose
    segmenter returned [segs]: the prompt of every segment is requested
    exactly once, and every prompt sent to the image service is the prompt
    recorded on a segment. *)
Definition prompt_once_claim (ui : UI) (w : World) (segs : list string) : Prop :=
  let wf := snd (main ui w) in
  (forall seg, seg ∈ segs ->
     length (filter (fun r => r = sd_request seg) (calls wf)) = 1%nat)
  /\ (forall p, p ∈ posted_prompts (calls wf) ->
        exists s, s ∈ segments (tracker wf) /\ prompt s = p).

(** Lines 78 and 84 of [main] in sequence: the orchestrator requests a
    prompt, then [generate_images] runs for the same segment. *)
Definition prompt_then_image (seg c : string) : M (string * list string) :=
  prompt_ ← generate_sd_prompts seg;
  image_paths ← generate_images [seg] c;
  mret (prompt_, image_paths).

(** The error log as [log_error] reads it: the entries of [errors.json],
    none when the file does not exist; [None] when the file holds
    something that is not a list. *)
Definition logged_errors (w : World) : option (list pyval) :=
  match store w !! errors_path (tracker w) with
  | None => Some []
  | Some (PList l) => Some l
  | Some _ => None
  end.

(** The entry [log_error] builds for a message and a time stamp. *)
Definition error_entry (error_message ts : string) : pyval :=
  PDict [("error", PStr error_message); ("timestamp", PStr ts)].

(** [entry["error"]] *)
Definition error_of (entry : pyval) : pyval :=
  match entry with
  | PDict d => dict_get d "error" PNone
  | _ => PNone
  end.

(** The messages of the [log_error] calls of a sequence, in order. *)
Definition messages (ops : list op) : list string :=
  omap (fun o => match o with OLogError m => Some m | _ => None end) ops.

(** The calls that end with [_save_local_state]. *)
Definition persists (o : op) : bool :=
  match o with
  | OStart _ _ | OUpdate _ _ | OFeedback _ _ | OSave | OFinish => true
  | OLogError _ | OLogMetrics _ => false
  end.

Definition metrics_path (t : ExperimentTracker) : string :=
  path_join (storage_dir t) "metrics.json".

(** The names the generators give to the artifacts of position [i]. *)
Definition image_file (i : nat) : string := "temp/image_" +:+ pretty i +:+ ".png".
Definition audio_file (i : nat) : string := "temp/audio_" +:+ pretty i +:+ ".mp3".
Definition video_file (i : nat) : string := "temp/segment_" +:+ pretty i +:+ ".mp4".

Definition is_completion (r : request) : bool :=
  match r with ChatCompletion _ _ _ _ _ => true | _ => false end.

(** A string has no white space at either end. *)
Definition stripped (s : string) : Prop := strip s = s.

(** A PDF with two pages of text, for the instances below. *)
Definition pdf_path (name_ : string) (pages : list string) : Path :=
  {| path_str := "temp/" +:+ name_; suffix := ".pdf"; open_fails := None;
     read_utf8 := None; read_latin1 := "%PDF-1.7";
     read_pdf := PdfDoc false false pages |}.

(** A file that cannot be opened. *)
Definition missing_path (name_ : string) : Path :=
  {| path_str := "temp/" +:+ name_; suffix := ".txt";
     open_fails := Some (Exn Exception
                           ("[Errno 2] No such file or directory: 'temp/"
                            +:+ name_ +:+ "'"));
     read_utf8 := None; read_latin1 := "";
     read_pdf := PdfFails (Exn Exception "EOF marker not found") |}.

(** A world in which the completion and the image service answer and the
    download of the image fails. *)
Definition download_fails_world : World :=
  world_of (__init__ "Crime-Doc-Generator" "20240101_120000" false)
    (fun n => "2024-01-01T12:00:0" +:+ pretty n)
    (fun _ r => match r with
                | ChatCompletion _ _ _ _ _ => Reply "a dim hallway"
                | RunComfyPost _ _ _ _ _ => Reply "https://cdn.runcomfy.com/out.png"
                | _ => Fails "connection reset"
                end).

End Props.
Export Props.

(** * Properties *)

(** ** Unfolding computations *)

Ltac unfold_m :=
  unfold mbind, M_bind, mret, M_ret, bind, ret, raise, when, try_except,
    try_finally, get_tracker, set_tracker, now, write_json, read_json,
    wandb_media, wandb_log, wandb_finish, st in *.

Lemma set_segments_twice l1 l2 t :
  set_segments l1 (set_segments l2 t) = set_segments l1 t.
Proof. reflexivity. Qed.

Lemma resolve_index_Some n i k :
  resolve_index n i = Some k -> in_range n i /\ (k < n)%nat.
Proof.
  unfold resolve_index, in_range. intros H.
  destruct (0 <=? i) eqn:E0.
  - destruct (i <? Z.of_nat n) eqn:E1; [|discriminate].
    inversion H; subst. lia.
  - destruct (- Z.of_nat n <=? i) eqn:E1; [|discriminate].
    inversion H; subst. lia.
Qed.

Lemma resolve_index_None n i :
  resolve_index n i = None <-> ~ in_range n i.
Proof.
  unfold resolve_index, in_range.
  destruct (0 <=? i) eqn:E0.
  - destruct (i <? Z.of_nat n) eqn:E1; split; try discriminate; try lia; auto.
  - destruct (- Z.of_nat n <=? i) eqn:E1; split; try discriminate; try lia; auto.
Qed.

Lemma resolve_index_nonneg n (k : nat) :
  (k < n)%nat -> resolve_index n (Z.of_nat k) = Some k.
Proof.
  intros H. unfold resolve_index.
  destruct (0 <=? Z.of_nat k) eqn:E0; [|lia].
  destruct (Z.of_nat k <? Z.of_nat n) eqn:E1; [|lia].
  by rewrite Nat2Z.id.
Qed.

(** The world [update_segment] reaches when the index refers to position
    [k]. *)
Lemma update_segment_ok w idx i a v k :
  resolve_index (length (segments (tracker w))) idx = Some k ->
  update_segment idx i a v w =
  (Ok tt,
   let t' := set_segments (alter (apply_paths i a v) k (segments (tracker w)))
               (tracker w) in
   {| tracker := t';
      store := <[state_path t' := state_doc t' (clock w (ticks w))]> (store w);
      temp := temp w; clock := clock w; ticks := S (ticks w);
      oracle := oracle w; calls := calls w;
      sink := if wandb (tracker w) && truthy_opt v
              then sink w ++ [PDict [("segment_" +:+ pretty idx +:+ "_video",
                                      of_opt_str v)]]
              else sink w;
      sink_finished := sink_finished w; screen := screen w |}).
Proof.
  intros H.
  unfold update_segment, segment_at, assign_segment, _save_local_state, apply_paths.
  unfold_m. cbn. rewrite H.
  destruct (truthy_opt i), (truthy_opt a), (truthy_opt v), (wandb (tracker w));
    cbn; rewrite ?list_alter_alter_eq; try reflexivity.
  all: rewrite list_alter_id by done; destruct w as [[] ? ? ? ? ? ? ? ? ?]; reflexivity.
Qed.

Lemma update_segment_fail w idx i a v :
  resolve_index (length (segments (tracker w))) idx = None ->
  update_segment idx i a v w = (Raise index_error, w).
Proof.
  intros H. unfold update_segment, segment_at. unfold_m. cbn. by rewrite H.
Qed.

Lemma in_range_resolve n i :
  in_range n i -> exists k, resolve_index n i = Some k /\ (k < n)%nat.
Proof.
  intros H. destruct (resolve_index n i) as [k|] eqn:E.
  - exists k. split; [done|]. by apply resolve_index_Some in E as [_ ?].
  - by apply resolve_index_None in E.
Qed.

Lemma truthy_opt_not_None (o : option string) : truthy_opt o = true -> o <> None.
Proof. by destruct o. Qed.


(** What [apply_paths] does to each field. *)
Lemma apply_paths_fields i a v s :
  text (apply_paths i a v s) = text s /\
  prompt (apply_paths i a v s) = prompt s /\
  feedback (apply_paths i a v s) = feedback s /\
  metrics (apply_paths i a v s) = metrics s /\
  image_path (apply_paths i a v s) = (if truthy_opt i then i else image_path s) /\
  audio_path (apply_paths i a v s) = (if truthy_opt a then a else audio_path s) /\
  video_path (apply_paths i a v s) = (if truthy_opt v then v else video_path s).
Proof.
  unfold apply_paths.
  destruct (truthy_opt i), (truthy_opt a), (truthy_opt v); cbn; repeat split.
Qed.

(** ** Properties of [update_segment] *)



(** C10: for an index in range, [update_segment] changes nothing but the
    path fields of the addressed segment that are supplied with a truthy
    value.  The other fields of that segment, every other segment, the
    number of segments, the attributes of the run, the error log and the
    temporary files are as before; a path supplied as [None] or as the
    empty string keeps its old value, so a path that is set stays set. *)
Theorem update_segment_frame (w : World) (idx : Z) (i a v : option string) :
  in_range (length (segments (tracker w))) idx ->
  let w' := snd (update_segment idx i a v w) in
  exists k, resolve_index (length (segments (tracker w))) idx = Some k
  /\ (forall j, j <> k -> segments (tracker w') !! j = segments (tracker w) !! j)
  /\ (exists s s', segments (tracker w) !! k = Some s
        /\ segments (tracker w') !! k = Some s'
        /\ text s' = text s /\ prompt s' = prompt s
        /\ feedback s' = feedback s /\ metrics s' = metrics s
        /\ image_path s' = (if truthy_opt i then i else image_path s)
        /\ audio_path s' = (if truthy_opt a then a else audio_path s)
        /\ video_path s' = (if truthy_opt v then v else video_path s)
        /\ (image_path s <> None -> image_path s' <> None)
        /\ (audio_path s <> None -> audio_path s' <> None)
        /\ (video_path s <> None -> video_path s' <> None))
  /\ length (segments (tracker w')) = length (segments (tracker w))
  /\ project_name (tracker w') = project_name (tracker w)
  /\ run_id (tracker w') = run_id (tracker w)
  /\ has_error (tracker w') = has_error (tracker w)
  /\ wandb (tracker w') = wandb (tracker w)
  /\ storage_dir (tracker w') = storage_dir (tracker w)
  /\ store w' !! errors_path (tracker w) = store w !! errors_path (tracker w)
  /\ temp w' = temp w /\ calls w' = calls w /\ screen w' = screen w.
Proof.
  intros Hin w'. destruct (in_range_resolve _ _ Hin) as (k & Hk & Hlt).
  exists k. split; [done|]. subst w'. rewrite (update_segment_ok _ _ _ _ _ _ Hk). cbn.
  split; [|split; [|split]].
  - intros j Hj. by apply list_lookup_alter_ne.
  - destruct (lookup_lt_is_Some_2 _ _ Hlt) as [s Hs].
    exists s, (apply_paths i a v s). split; [done|].
    rewrite list_lookup_alter_eq, Hs. split; [done|].
    destruct (apply_paths_fields i a v s) as (-> & -> & -> & -> & -> & -> & ->).
    repeat split.
    + destruct (truthy_opt i) eqn:E; [intros _; by apply truthy_opt_not_None|done].
    + destruct (truthy_opt a) eqn:E; [intros _; by apply truthy_opt_not_None|done].
    + destruct (truthy_opt v) eqn:E; [intros _; by apply truthy_opt_not_None|done].
  - apply length_alter.
  - repeat split. apply lookup_insert_ne. unfold state_path, errors_path, path_join.
    cbn. intros H. apply String.app_inj in H. discriminate H.
Qed.


(** C10, an instance: supplying only an image path for index 0 leaves
    [has_error] and the number of segments as they were. *)
Lemma update_segment_frame_witness :
  in_range (length (segments (tracker one_segment_world))) 0
  /\ has_error (tracker (snd (update_segment 0 (Some "temp/image_0.png") None None
                                one_segment_world)))
     = has_error (tracker one_segment_world).
Proof.
  assert (Hin : in_range (length (segments (tracker one_segment_world))) 0)
    by (unfold in_range; cbn; lia).
  split; [exact Hin|].
  destruct (update_segment_frame one_segment_world 0 (Some "temp/image_0.png")
              None None Hin) as (k & _ & _ & _ & _ & _ & _ & H & _).
  exact H.
Defined.

(** ** The tracker under arbitrary calls *)

Lemma start_segment_result w text_ prompt_ :
  fst (start_segment text_ prompt_ w) = Ok (Z.of_nat (length (segments (tracker w))))
  /\ tracker (snd (start_segment text_ prompt_ w))
     = op_effect (OStart text_ prompt_) (tracker w).
Proof.
  unfold start_segment, _save_local_state. unfold_m. cbn.
  destruct (wandb (tracker w)); cbn; rewrite length_app; cbn;
    (split; [f_equal; lia|reflexivity]).
Qed.

Lemma add_feedback_ok w idx fb k :
  resolve_index (length (segments (tracker w))) idx = Some k ->
  fst (add_feedback idx fb w)
  = Ok (truthy (dict_get fb "needs_regeneration" (PBool false)))
  /\ tracker (snd (add_feedback idx fb w))
     = set_segments (alter (set_feedback (Some fb)) k (segments (tracker w))) (tracker w)
  /\ calls (snd (add_feedback idx fb w)) = calls w
  /\ screen (snd (add_feedback idx fb w)) = screen w
  /\ temp (snd (add_feedback idx fb w)) = temp w.
Proof.
  intros H. unfold add_feedback, segment_at, assign_segment, _save_local_state.
  unfold_m. cbn. rewrite H. destruct (wandb (tracker w)); cbn; by repeat split.
Qed.

Lemma add_feedback_fail w idx fb :
  resolve_index (length (segments (tracker w))) idx = None ->
  add_feedback idx fb w = (Raise index_error, w).
Proof.
  intros H. unfold add_feedback, segment_at. unfold_m. cbn. by rewrite H.
Qed.

Lemma log_error_tracker w msg :
  fst (log_error msg w) = Ok tt
  /\ tracker (snd (log_error msg w)) = set_has_error true (tracker w).
Proof.
  unfold log_error. unfold_m. cbn.
  destruct (store w !! path_join (storage_dir (tracker w)) "errors.json")
    as [[]|]; cbn; destruct (wandb (tracker w)); cbn; by split.
Qed.

Lemma save_experiment_tracker w :
  fst (save_experiment w) = Ok tt /\ tracker (snd (save_experiment w)) = tracker w.
Proof.
  unfold save_experiment, _save_local_state. unfold_m. cbn.
  destruct (wandb (tracker w)); cbn; by split.
Qed.

Lemma finish_tracker w :
  fst (finish w) = Ok tt /\ tracker (snd (finish w)) = tracker w.
Proof.
  unfold finish, _cleanup, save_experiment, _save_local_state. unfold_m. cbn.
  destruct (wandb (tracker w)) eqn:E; cbn; rewrite ?E; cbn; by split.
Qed.

Lemma log_metrics_tracker w m :
  fst (log_metrics m w) = Ok tt /\ tracker (snd (log_metrics m w)) = tracker w.
Proof.
  unfold log_metrics. unfold_m. cbn. destruct (wandb (tracker w)); cbn; by split.
Qed.

Lemma run_op_tracker o w : tracker (snd (run_op o w)) = op_effect o (tracker w).
Proof.
  destruct o as [text_ prompt_|idx kwargs|msg|m|idx fb| |]; cbn [run_op op_effect].
  - pose proof (start_segment_result w text_ prompt_) as [Hr Ht].
    unfold mbind, M_bind, bind. destruct (start_segment text_ prompt_ w) as [[z|e] w'];
      cbn in *; done.
  - unfold call_update_segment.
    destruct (bind_keywords kwargs (None, None, None)) as [[[i a] v]|e]; [|done].
    destruct (resolve_index (length (segments (tracker w))) idx) as [k|] eqn:E.
    + by rewrite (update_segment_ok _ _ _ _ _ _ E).
    + by rewrite (update_segment_fail _ _ _ _ _ E).
  - apply log_error_tracker.
  - apply log_metrics_tracker.
  - destruct (resolve_index (length (segments (tracker w))) idx) as [k|] eqn:E.
    + pose proof (add_feedback_ok w idx fb k E) as (Hr & Ht & _).
      unfold mbind, M_bind, bind. destruct (add_feedback idx fb w) as [[b|e] w'];
        cbn in *; done.
    + unfold mbind, M_bind, bind. by rewrite (add_feedback_fail _ _ _ E).
  - apply save_experiment_tracker.
  - apply finish_tracker.
Qed.

Lemma op_effect_has_error o t :
  has_error (op_effect o t) = has_error t || is_log_error o.
Proof.
  destruct o as [text_ prompt_|idx kwargs|msg|m|idx fb| |]; cbn;
    rewrite ?orb_false_r, ?orb_true_r; try reflexivity.
  - destruct (bind_keywords kwargs (None, None, None)) as [[[i a] v]|e];
      destruct (resolve_index (length (segments t)) idx); reflexivity.
  - destruct (resolve_index (length (segments t)) idx); reflexivity.
Qed.

Lemma op_effect_lookup o t i s :
  segments t !! i = Some s ->
  exists s', segments (op_effect o t) !! i = Some s'
    /\ text s' = text s /\ prompt s' = prompt s
    /\ (targets i o t = false -> s' = s).
Proof.
  intros Hs.
  destruct o as [text_ prompt_|idx kwargs|msg|m|idx fb| |]; cbn;
    try (exists s; by repeat split).
  - exists s. split; [|by repeat split].
    apply lookup_app_l_Some. exact Hs.
  - destruct (bind_keywords kwargs (None, None, None)) as [[[pi pa] pv]|e];
      [|exists s; by repeat split].
    destruct (resolve_index (length (segments t)) idx) as [k|] eqn:E;
      [|exists s; by repeat split].
    cbn. destruct (decide (k = i)) as [->|Hne].
    + exists (apply_paths pi pa pv s). rewrite list_lookup_alter_eq, Hs.
      destruct (apply_paths_fields pi pa pv s) as (-> & -> & _).
      repeat split. intros Hb. by apply bool_decide_eq_false in Hb.
    + exists s. rewrite list_lookup_alter_ne by done. by repeat split.
  - destruct (resolve_index (length (segments t)) idx) as [k|] eqn:E;
      [|exists s; by repeat split].
    cbn. destruct (decide (k = i)) as [->|Hne].
    + exists (set_feedback (Some fb) s). rewrite list_lookup_alter_eq, Hs.
      repeat split. intros Hb. by apply bool_decide_eq_false in Hb.
    + exists s. rewrite list_lookup_alter_ne by done. by repeat split.
Qed.

Lemma run_ops_lookup ops : forall w i s,
  segments (tracker w) !! i = Some s ->
  exists s', segments (tracker (run_ops ops w)) !! i = Some s'
    /\ text s' = text s /\ prompt s' = prompt s
    /\ (never_targets i ops w = true -> s' = s).
Proof.
  induction ops as [|o ops IH]; intros w i s Hs; cbn.
  - exists s. by repeat split.
  - destruct (op_effect_lookup o (tracker w) i s Hs) as (s1 & H1 & Ht & Hp & Hsame).
    rewrite <- run_op_tracker in H1.
    destruct (IH _ _ _ H1) as (s2 & H2 & Ht2 & Hp2 & Hsame2).
    exists s2. split; [done|]. split; [congruence|]. split; [congruence|].
    intros Hn. apply andb_true_iff in Hn as [Hn1 Hn2].
    apply negb_true_iff in Hn1. rewrite (Hsame2 Hn2). by apply Hsame.
Qed.

Lemma start_segments_result l : forall w,
  fst (start_segments l w)
  = Ok (Z.of_nat <$> seq (length (segments (tracker w))) (length l))
  /\ segments (tracker (snd (start_segments l w)))
     = segments (tracker w) ++ (new_segment <$> l).
Proof.
  induction l as [|[text_ prompt_] l IH]; intros w; cbn.
  - split; [done|]. by rewrite app_nil_r.
  - destruct (start_segment_result w text_ prompt_) as [Hr Ht].
    unfold mbind, M_bind, bind.
    destruct (start_segment text_ prompt_ w) as [[z|e] w1]; cbn in *; [|done].
    injection Hr as ->.
    destruct (IH w1) as [Hr1 Ht1].
    destruct (start_segments l w1) as [[js|e] w2]; cbn in *; [|done].
    injection Hr1 as ->. rewrite Ht1, Ht. cbn.
    rewrite length_app. cbn. rewrite Nat.add_1_r.
    split; [done|]. by rewrite <- app_assoc.
Qed.

(** C8: on a fresh tracker, [start_segment] called N times returns
    0, 1, ..., N-1 in call order and position [i] holds the [i]-th segment
    started.  Whatever calls follow, position [i] keeps holding a segment
    with the same text and prompt, and it holds the very same segment as
    long as no call addresses position [i]. *)
Theorem start_segment_indices_stable :
  (forall l w,
     segments (tracker w) = [] ->
     fst (start_segments l w) = Ok (Z.of_nat <$> seq 0 (length l))
     /\ segments (tracker (snd (start_segments l w))) = new_segment <$> l)
  /\ (forall ops w (i : nat) s,
        segments (tracker w) !! i = Some s ->
        exists s', segments (tracker (run_ops ops w)) !! i = Some s'
          /\ text s' = text s /\ prompt s' = prompt s)
  /\ (forall ops w (i : nat) s,
        segments (tracker w) !! i = Some s ->
        never_targets i ops w = true ->
        segments (tracker (run_ops ops w)) !! i = Some s).
Proof.
  split; [|split].
  - intros l w H. destruct (start_segments_result l w) as [Hr Hs].
    rewrite H in Hr, Hs. done.
  - intros ops w i s Hs.
    destruct (run_ops_lookup ops w i s Hs) as (s' & H1 & H2 & H3 & _). eauto.
  - intros ops w i s Hs Hn.
    destruct (run_ops_lookup ops w i s Hs) as (s' & H1 & _ & _ & H4).
    by rewrite <- (H4 Hn).
Qed.

(** C8, an instance: three segments started on a fresh tracker get the
    indices 0, 1 and 2. *)
Lemma start_segment_indices_stable_witness :
  segments (tracker fresh_world) = []
  /\ fst (start_segments [("one", ""); ("two", ""); ("three", "")] fresh_world)
     = Ok [0; 1; 2].
Proof.
  split; [reflexivity|].
  destruct start_segment_indices_stable as (H & _).
  exact (proj1 (H [("one", ""); ("two", ""); ("three", "")] fresh_world eq_refl)).
Defined.

(** ** Persistence *)

Lemma save_experiment_world w :
  fst (save_experiment w) = Ok tt
  /\ tracker (snd (save_experiment w)) = tracker w
  /\ store (snd (save_experiment w))
     = <[state_path (tracker w) := state_doc (tracker w) (clock w (ticks w))]> (store w)
  /\ clock (snd (save_experiment w)) = clock w
  /\ ticks (snd (save_experiment w))
     = (if wandb (tracker w) then S (S (ticks w)) else S (ticks w)).
Proof.
  unfold save_experiment, _save_local_state. unfold_m. cbn.
  destruct (wandb (tracker w)); cbn; by repeat split.
Qed.

(** C4, counterexample: with a clock that advances between the two saves,
    the state file written by the second save differs from the one written
    by the first in its time stamp. *)
Lemma save_twice_differs :
  durable (snd (save_experiment fresh_world))
    !! "experiments/20240101_120000/state.json"
  = Some (json_dump (state_doc (tracker fresh_world) "2024-01-01T12:00:00"))
  /\ durable (snd (save_experiment (snd (save_experiment fresh_world))))
       !! "experiments/20240101_120000/state.json"
     = Some (json_dump (state_doc (tracker fresh_world) "2024-01-01T12:00:01"))
  /\ ~ save_idempotent_claim fresh_world.
Proof.
  split; [vm_compute; reflexivity|]. split; [vm_compute; reflexivity|].
  unfold save_idempotent_claim. intros H.
  apply (f_equal (fun m => m !! "experiments/20240101_120000/state.json")) in H.
  vm_compute in H. discriminate H.
Qed.

(** C4, as amended: [save_experiment] never fails and does not change the
    tracker; each save replaces the state file by the document made of the
    run id, the time stamp read from the clock at that save, and the
    segments, and touches no other file.  Two saves in a row therefore
    write documents that agree on everything but the time stamp, and leave
    identical bytes whenever the two clock readings agree. *)
Theorem save_twice_same_but_timestamp (w : World) :
  let w1 := snd (save_experiment w) in
  let w2 := snd (save_experiment w1) in
  let t := tracker w in
  fst (save_experiment w) = Ok tt /\ fst (save_experiment w1) = Ok tt
  /\ tracker w1 = t /\ tracker w2 = t
  /\ store w1 = <[state_path t := state_doc t (clock w (ticks w))]> (store w)
  /\ store w2 = <[state_path t := state_doc t (clock w (ticks w1))]> (store w)
  /\ (clock w (ticks w1) = clock w (ticks w) -> durable w2 = durable w1).
Proof.
  intros w1 w2 t.
  destruct (save_experiment_world w) as (Hr1 & Ht1 & Hs1 & Hc1 & Hk1).
  destruct (save_experiment_world w1) as (Hr2 & Ht2 & Hs2 & Hc2 & Hk2).
  fold w1 in Ht1, Hs1, Hc1, Hk1. fold w2 in Ht2, Hs2.
  assert (Hs2' : store w2 = <[state_path t := state_doc t (clock w (ticks w1))]> (store w)).
  { rewrite Hs2, Ht1, Hc1, Hs1. fold t. apply insert_insert_eq. }
  split; [done|]. split; [done|]. split; [done|].
  split; [by rewrite Ht2|]. split; [done|]. split; [done|].
  intros Heq. unfold durable. rewrite Hs2', Heq, Hs1. done.
Qed.

(** C4, an instance: under a clock that stands still the two saves leave
    the same bytes. *)
Lemma save_twice_same_but_timestamp_witness :
  let w := world_of (__init__ "Crime-Doc-Generator" "20240101_120000" false)
             (fun _ => "2024-01-01T12:00:00") (fun _ _ => Fails "offline") in
  durable (snd (save_experiment (snd (save_experiment w))))
  = durable (snd (save_experiment w)).
Proof.
  intros w.
  destruct (save_twice_same_but_timestamp w) as (_ & _ & _ & _ & _ & _ & H).
  apply H. reflexivity.
Defined.

(** ** The segmenter *)

Lemma combine_documents_readable file_paths texts :
  Forall2 readable file_paths texts ->
  forall acc w,
    combine_documents file_paths acc w
    = (Ok (foldl (fun acc text_ => acc +:+ text_ +:+ LF +:+ LF) acc texts), w).
Proof.
  induction 1 as [|p text_ ps ts Hp _ IH]; intros acc w; cbn; [done|].
  unfold mbind, M_bind, bind. rewrite (Hp w). apply IH.
Qed.

Lemma empty_input_error_distinct e :
  Exn Exception ("Failed to process documents: " +:+ exn_msg e) <> empty_input_error.
Proof. discriminate. Qed.

Lemma ensure_ten_length l : l <> [] -> length (ensure_ten l) = 10%nat.
Proof.
  intros _. unfold ensure_ten.
  destruct (length l <? 10)%nat eqn:E.
  - apply Nat.ltb_lt in E. rewrite length_take, length_app, length_replicate. lia.
  - apply Nat.ltb_ge in E. rewrite length_take. lia.
Qed.

Lemma ensure_ten_long l : (10 <= length l)%nat -> ensure_ten l = take 10 l.
Proof.
  intros H. unfold ensure_ten.
  destruct (length l <? 10)%nat eqn:E; [|done].
  apply Nat.ltb_lt in E. lia.
Qed.

Lemma ensure_ten_short l :
  (length l < 10)%nat -> ensure_ten l = l ++ replicate (10 - length l) placeholder.
Proof.
  intros H. unfold ensure_ten.
  destruct (length l <? 10)%nat eqn:E; [|apply Nat.ltb_ge in E; lia].
  apply take_ge. rewrite length_app, length_replicate. lia.
Qed.

Lemma candidates_nonempty content : Forall (fun s => s <> "") (candidates content).
Proof.
  unfold candidates. apply Forall_forall. intros s Hs.
  by apply list_elem_of_filter in Hs as [? _].
Qed.

(** C5: when every document can be read, [process_documents] raises the
    empty-input error exactly when the combined text is empty after
    stripping; with no documents at all it always raises it. *)
Theorem empty_input_iff_blank (file_paths : list Path) (texts : list string)
  (w : World) :
  Forall2 readable file_paths texts ->
  (fst (process_documents file_paths w) = Raise empty_input_error
   <-> strip (combined texts) = "")
  /\ (forall w', process_documents [] w' = (Raise empty_input_error, w')).
Proof.
  intros Hread. split; [|done].
  unfold process_documents. unfold mbind, M_bind, bind.
  rewrite (combine_documents_readable _ _ Hread). fold (combined texts).
  destruct (String.eqb (strip (combined texts)) "") eqn:E.
  - apply String.eqb_eq in E. by split.
  - apply String.eqb_neq in E. split; [|done].
    unfold try_except, request_, raise, ret. cbn.
    destruct (oracle w _ _) as [content|msg]; cbn.
    + destruct (candidates content); cbn; [|done].
      intros H. injection H as H. discriminate H.
    + intros H. injection H as H. discriminate H.
Qed.

Lemma txt_path_readable name_ text_ : readable (txt_path name_ text_) text_.
Proof. intros w. reflexivity. Qed.

(** C5, an instance: one document that holds only blanks. *)
Lemma empty_input_iff_blank_witness :
  fst (process_documents [txt_path "notes.txt" "   "] fresh_world)
  = Raise empty_input_error.
Proof.
  assert (Hread : Forall2 readable [txt_path "notes.txt" "   "] ["   "]).
  { constructor; [apply txt_path_readable|constructor]. }
  apply (proj1 (empty_input_iff_blank _ _ fresh_world Hread)).
  vm_compute. reflexivity.
Defined.

(** C2: when the documents can be read, their combined text is not blank,
    and the completion answers with a text that has at least one non-empty
    candidate, [process_documents] returns exactly 10 segments: the first
    10 candidates in order when there are 10 or more, and otherwise all the
    candidates in order followed by copies of the placeholder. *)
Theorem segmenter_pads_and_truncates (file_paths : list Path)
  (texts : list string) (w : World) (content : string) :
  Forall2 readable file_paths texts ->
  strip (combined texts) <> "" ->
  oracle w (length (calls w)) (segment_request (combined texts)) = Reply content ->
  candidates content <> [] ->
  exists segments_,
    fst (process_documents file_paths w) = Ok segments_
    /\ length segments_ = 10%nat
    /\ ((10 < length (candidates content))%nat ->
        segments_ = take 10 (candidates content))
    /\ ((length (candidates content) < 10)%nat ->
        segments_ = candidates content
                    ++ replicate (10 - length (candidates content))
                         "[Segment content to be generated]")
    /\ (length (candidates content) = 10%nat -> segments_ = candidates content).
Proof.
  intros Hread Hblank Hreply Hcand.
  exists (ensure_ten (candidates content)).
  split; [|split; [|split; [|split]]].
  - unfold process_documents. unfold mbind, M_bind, bind.
    rewrite (combine_documents_readable _ _ Hread). fold (combined texts).
    apply String.eqb_neq in Hblank. rewrite Hblank.
    unfold try_except, request_, raise, ret. cbn.
    fold (segment_request (combined texts)). rewrite Hreply. cbn.
    destruct (candidates content); [done|reflexivity].
  - by apply ensure_ten_length.
  - intros H. apply ensure_ten_long. lia.
  - intros H. by apply ensure_ten_short.
  - intros H. rewrite ensure_ten_long by lia. apply take_ge. lia.
Qed.

(** C2, an instance: a completion with two candidates gives those two
    followed by eight placeholders. *)
Lemma segmenter_pads_and_truncates_witness :
  exists segments_,
    fst (process_documents [txt_path "case.txt" "The case."]
           (replying_world two_part_reply)) = Ok segments_
    /\ length segments_ = 10%nat
    /\ segments_ = ["A body is found."; "The trial begins."]
                   ++ replicate 8 "[Segment content to be generated]".
Proof.
  assert (Hread : Forall2 readable [txt_path "case.txt" "The case."] ["The case."]).
  { constructor; [apply txt_path_readable|constructor]. }
  destruct (segmenter_pads_and_truncates _ _ (replying_world two_part_reply)
              two_part_reply Hread) as (segs & Hr & Hlen & _ & Hshort & _).
  - vm_compute. discriminate.
  - reflexivity.
  - vm_compute. discriminate.
  - exists segs. split; [exact Hr|]. split; [exact Hlen|].
    apply Hshort. vm_compute. lia.
Defined.

(** ** The orchestrator *)

Lemma start_segment_world w text_ prompt_ :
  oracle (snd (start_segment text_ prompt_ w)) = oracle w
  /\ calls (snd (start_segment text_ prompt_ w)) = calls w
  /\ temp (snd (start_segment text_ prompt_ w)) = temp w
  /\ screen (snd (start_segment text_ prompt_ w)) = screen w.
Proof.
  unfold start_segment, _save_local_state. unfold_m. cbn.
  destruct (wandb (tracker w)); cbn; by repeat split.
Qed.

(** One iteration of the loop of [main] never runs to its end: either the
    completion call for the prompt fails, or the call
    [update_segment(segment_idx, prompt=prompt)] raises [TypeError]. *)
Lemma process_segment_raises ui c i seg w :
  process_segment ui c i seg w
  = (Raise (match oracle w (length (calls w)) (sd_request seg) with
            | Reply _ => prompt_type_error
            | Fails msg => Exn Exception msg
            end),
     record_call (sd_request seg) (snd (start_segment seg "" w))).
Proof.
  unfold process_segment. unfold mbind, M_bind, bind.
  destruct (start_segment_world w seg "") as (Ho & Hc & _).
  destruct (start_segment_result w seg "") as [Hr _].
  destruct (start_segment seg "" w) as [[z|e] w1]; cbn in *; [|done].
  unfold generate_sd_prompts, request_. rewrite Ho, Hc.
  destruct (oracle w (length (calls w)) (sd_request seg)); reflexivity.
Qed.

Lemma process_segments_cons ui c i seg rest v w :
  process_segments ui c i (seg :: rest) v w = 
  (Raise (match oracle w (length (calls w)) (sd_request seg) with
          | Reply _ => prompt_type_error
          | Fails msg => Exn Exception msg
          end),
   record_call (sd_request seg) (snd (start_segment seg "" w))).
Proof.
  cbn. unfold mbind, M_bind, bind. by rewrite process_segment_raises.
Qed.

(** The loop stops at the first iteration that raises. *)
Lemma process_segments_stops ui c pre : forall i seg post v vp w w1 e w2,
  process_segments ui c i pre v w = (Ok vp, w1) ->
  process_segment ui c (i + length pre) seg w1 = (Raise e, w2) ->
  process_segments ui c i (pre ++ seg :: post) v w = (Raise e, w2).
Proof.
  induction pre as [|s pre IH]; intros i seg post v vp w w1 e w2 Hpre Hseg; cbn in *.
  - unfold mret, M_ret, ret in Hpre. injection Hpre as <- <-.
    unfold mbind, M_bind, bind. rewrite Nat.add_0_r in Hseg. by rewrite Hseg.
  - unfold mbind, M_bind, bind in *.
    destruct (process_segment ui c i s w) as [[x|e'] w']; [|done].
    eapply IH; [exact Hpre|]. by rewrite Nat.add_succ_comm.
Qed.

Lemma read_document_world p w : snd (read_document p w) = w.
Proof.
  unfold read_document, extract_text_from_pdf. unfold_m.
  destruct (String.eqb (lower (suffix p)) ".pdf").
  - destruct (open_fails p); [done|].
    destruct (read_pdf p) as [e|enc dec pages]; [done|].
    destruct enc, dec; cbn; try done.
    all: match goal with |- context [String.eqb ?a ?b] => destruct (String.eqb a b) end; done.
  - destruct (open_fails p); [done|]. by destruct (read_utf8 p).
Qed.

Lemma combine_documents_world ps : forall acc w, snd (combine_documents ps acc w) = w.
Proof.
  induction ps as [|p ps IH]; intros acc w; cbn; [done|].
  unfold mbind, M_bind, bind.
  pose proof (read_document_world p w) as H.
  destruct (read_document p w) as [[x|e] w']; cbn in *; subst; [apply IH|done].
Qed.

(** [process_documents] changes nothing but the record of outside calls. *)
Lemma process_documents_world ps w :
  tracker (snd (process_documents ps w)) = tracker w
  /\ store (snd (process_documents ps w)) = store w
  /\ oracle (snd (process_documents ps w)) = oracle w
  /\ screen (snd (process_documents ps w)) = screen w.
Proof.
  unfold process_documents. unfold mbind, M_bind, bind.
  pose proof (combine_documents_world ps "" w) as H.
  destruct (combine_documents ps "" w) as [[x|e] w']; cbn in *; subst; [|done].
  destruct (String.eqb (strip x) ""); [done|].
  unfold try_except, request_, raise, ret.
  destruct (oracle w _ _) as [content|msg]; cbn; [|done].
  by destruct (candidates content).
Qed.

Lemma save_uploads_world files : forall acc w,
  fst (save_uploads files acc w) = Ok (acc ++ (saved <$> files))
  /\ tracker (snd (save_uploads files acc w)) = tracker w
  /\ store (snd (save_uploads files acc w)) = store w
  /\ calls (snd (save_uploads files acc w)) = calls w
  /\ oracle (snd (save_uploads files acc w)) = oracle w
  /\ screen (snd (save_uploads files acc w)) = screen w.
Proof.
  induction files as [|f files IH]; intros acc w; cbn.
  - by rewrite app_nil_r.
  - unfold mbind, M_bind, bind, write_temp. cbn.
    destruct (IH (acc ++ [saved f])
                {| tracker := tracker w; store := store w;
                   temp := <[path_join "temp" (name f) := buffer f]> (temp w);
                   clock := clock w; ticks := ticks w; oracle := oracle w;
                   calls := calls w; sink := sink w;
                   sink_finished := sink_finished w; screen := screen w |})
      as (-> & -> & -> & -> & -> & ->).
    by rewrite <- app_assoc.
Qed.

Lemma save_inputs_world ui ci w :
  fst (save_inputs ui ci w)
  = Ok (saved <$> uploaded_files ui, path_join "temp" (name ci))
  /\ tracker (snd (save_inputs ui ci w)) = tracker w
  /\ store (snd (save_inputs ui ci w)) = store w
  /\ calls (snd (save_inputs ui ci w)) = calls w
  /\ oracle (snd (save_inputs ui ci w)) = oracle w
  /\ screen (snd (save_inputs ui ci w)) = screen w.
Proof.
  unfold save_inputs. unfold mbind, M_bind, bind.
  destruct (save_uploads_world (uploaded_files ui) [] w) as (Hr & Ht & Hs & Hc & Ho & Hsc).
  destruct (save_uploads (uploaded_files ui) [] w) as [[fps|e] w1]; cbn in *; [|done].
  injection Hr as ->. by repeat split.
Qed.

Lemma generate_raises ui ci w segs e w2 :
  process_documents (saved <$> uploaded_files ui) (snd (save_inputs ui ci w))
  = (Ok segs, w2.1) ->
  process_segments ui (path_join "temp" (name ci)) 0 segs None w2.1 = (Raise e, w2.2) ->
  generate ui ci w = (Raise e, w2.2).
Proof.
  intros Hdocs Hloop. unfold generate. unfold mbind, M_bind, bind.
  destruct (save_inputs_world ui ci w) as (Hr & _).
  destruct (save_inputs ui ci w) as [[inputs|e'] wu]; cbn [fst snd] in *; [|done].
  injection Hr as ->. cbv zeta. cbn [fst snd]. rewrite Hdocs. by rewrite Hloop.
Qed.

(** What [main] does once its [try] block has raised [e] in world [w2]. *)
Lemma main_after_failure ui ci w e w2 :
  generate_clicked ui = true -> uploaded_files ui <> [] ->
  character_image ui = Some ci ->
  generate ui ci w = (Raise e, w2) ->
  fst (main ui w) = Ok tt
  /\ tracker (snd (main ui w)) = set_has_error true (tracker w2)
  /\ calls (snd (main ui w)) = calls w2
  /\ temp (snd (main ui w)) = ∅
  /\ StError ("An error occurred: " +:+ exn_msg e) ∈ screen (snd (main ui w)).
Proof.
  intros Hclick Hfiles Hci Hgen. unfold main. rewrite Hclick, Hci.
  destruct (uploaded_files ui) as [|f fs]; [done|].
  unfold try_finally, try_except. rewrite Hgen.
  unfold finish, _cleanup, save_experiment, _save_local_state, log_error, rmtree_temp.
  unfold_m. cbn.
  destruct (store w2 !! path_join (storage_dir (tracker w2)) "errors.json")
    as [[]|]; cbn;
    destruct (wandb (tracker w2)) eqn:E; cbn; repeat (rewrite E; cbn);
    (split; [done|]); (split; [done|]); (split; [done|]); (split; [done|]);
    set_solver.
Qed.

(** C1, counterexample: segmentation yields ten segments and the prompt
    request of the first one fails.  The run is flagged, but the second
    segment is never started. *)
Lemma failure_not_isolated :
  fst (process_documents (saved <$> uploaded_files case_ui)
         (snd (save_inputs case_ui face (replying_world ten_part_reply))))
  = Ok ["One."; "Two."; "Three."; "Four."; "Five.";
        "Six."; "Seven."; "Eight."; "Nine."; "Ten."]
  /\ oracle (replying_world ten_part_reply) 1 (sd_request "One.") = Fails "offline"
  /\ segments (tracker (snd (main case_ui (replying_world ten_part_reply)))) !! 1%nat
     = None
  /\ ~ isolation_claim_at case_ui (replying_world ten_part_reply) 0.
Proof.
  split; [vm_compute; reflexivity|]. split; [reflexivity|].
  assert (H1 : segments (tracker (snd (main case_ui (replying_world ten_part_reply))))
               !! 1%nat = None) by (vm_compute; reflexivity).
  split; [exact H1|].
  intros [H _]. destruct (H 1%nat) as (s & Hs & _); [done|lia|].
  rewrite H1 in Hs. discriminate Hs.
Qed.

(** Segmentation, when it succeeds, yields ten segments. *)
Lemma process_documents_ten ps w segs w' :
  process_documents ps w = (Ok segs, w') -> length segs = 10%nat.
Proof.
  unfold process_documents. unfold mbind, M_bind, bind.
  destruct (combine_documents ps "" w) as [[x|e] w0]; [|done].
  destruct (String.eqb (strip x) ""); [done|].
  unfold try_except, request_, raise, ret.
  destruct (oracle w0 _ _) as [content|msg]; cbn -[ensure_ten]; [|done].
  destruct (candidates content) as [|c cs] eqn:E; cbn -[ensure_ten]; [done|].
  intros [= <- _]. by apply ensure_ten_length.
Qed.

(** The [try] block of [main] never runs to its end: whatever the outside
    world answers, it raises, at the latest in the first iteration of the
    loop. *)
Lemma generate_always_raises ui ci w : exists e w2, generate ui ci w = (Raise e, w2).
Proof.
  unfold generate. unfold mbind, M_bind, bind.
  destruct (save_inputs_world ui ci w) as (Hr & _).
  destruct (save_inputs ui ci w) as [[inputs|e'] wu]; cbn [fst snd] in *; [|done].
  cbv zeta.
  destruct (process_documents inputs.1 wu) as [[segs|e] ws] eqn:Hdocs; [|by eauto].
  apply process_documents_ten in Hdocs.
  destruct segs as [|seg rest]; [done|].
  rewrite process_segments_cons. by eauto.
Qed.

(** A run of [main] that is started always ends with [has_error] set. *)
Lemma main_always_flags ui ci w :
  generate_clicked ui = true -> uploaded_files ui <> [] ->
  character_image ui = Some ci ->
  has_error (tracker (snd (main ui w))) = true.
Proof.
  intros Hclick Hfiles Hci.
  destruct (generate_always_raises ui ci w) as (e & w2 & Hgen).
  by destruct (main_after_failure ui ci w e w2 Hclick Hfiles Hci Hgen) as (_ & -> & _).
Qed.

Lemma main_keeps_has_error ui w :
  has_error (tracker w) = true -> has_error (tracker (snd (main ui w))) = true.
Proof.
  intros H.
  destruct (generate_clicked ui) eqn:Hclick;
    [|unfold main; by rewrite Hclick].
  destruct (uploaded_files ui) as [|f fs] eqn:Hfiles;
    [unfold main; by rewrite Hclick, Hfiles|].
  destruct (character_image ui) as [ci|] eqn:Hci;
    [|unfold main; by rewrite Hclick, Hfiles, Hci].
  apply (main_always_flags ui ci); [done| |done]. by rewrite Hfiles.
Qed.

(** C9: [has_error] is [False] when the tracker is created; a call either
    leaves it as it is or, for [log_error] and only for it, sets it; once
    set it stays set through any sequence of calls and through a run of
    [main]. *)
Theorem has_error_monotone :
  (forall p r b, has_error (__init__ p r b) = false)
  /\ (forall o w,
        has_error (tracker (snd (run_op o w)))
        = has_error (tracker w) || is_log_error o)
  /\ (forall msg w, has_error (tracker (snd (log_error msg w))) = true)
  /\ (forall ops w,
        has_error (tracker w) = true ->
        has_error (tracker (run_ops ops w)) = true)
  /\ (forall ui w,
        has_error (tracker w) = true ->
        has_error (tracker (snd (main ui w))) = true).
Proof.
  split; [done|]. split; [|split; [|split]].
  - intros o w. rewrite run_op_tracker. apply op_effect_has_error.
  - intros msg w. by destruct (log_error_tracker w msg) as [_ ->].
  - induction ops as [|o ops IH]; intros w H; cbn; [done|].
    apply IH. rewrite run_op_tracker, op_effect_has_error, H. done.
  - apply main_keeps_has_error.
Qed.

(** C9, an instance: after [log_error] the flag is set and two further
    calls leave it set. *)
Lemma has_error_monotone_witness :
  has_error (tracker (snd (log_error "boom" fresh_world))) = true
  /\ has_error (tracker (run_ops [OSave; OStart "text" ""]
                           (snd (log_error "boom" fresh_world)))) = true.
Proof.
  destruct has_error_monotone as (_ & _ & Hlog & Hmono & _).
  split; [apply Hlog|]. apply Hmono. apply Hlog.
Defined.

(** ** Prompts, images and feedback *)

Lemma generate_images_from_calls segs : forall i c acc w,
  calls (snd (generate_images_from i segs c acc w))
  = calls w ++ image_calls (oracle w) (length (calls w)) segs c
  /\ oracle (snd (generate_images_from i segs c acc w)) = oracle w
  /\ tracker (snd (generate_images_from i segs c acc w)) = tracker w.
Proof.
  induction segs as [|seg rest IH]; intros i c acc w; cbn.
  - by rewrite app_nil_r.
  - unfold mbind, M_bind, bind, generate_sd_prompts, request_.
    destruct (oracle w (length (calls w)) (sd_request seg)) as [p|msg]; [|done].
    cbn. rewrite length_app, Nat.add_1_r. cbn.
    destruct (oracle w (S (length (calls w))) _) as [url|msg]; cbn;
      [|by rewrite <- app_assoc].
    rewrite !length_app, !Nat.add_1_r. cbn.
    destruct (oracle w (S (S (length (calls w)))) (HttpGet url)) as [content|msg];
      cbn; [|by rewrite <- !app_assoc].
    unfold sleep, write_temp, mret, M_ret, ret. cbn.
    match goal with
    | |- context [generate_images_from ?i' rest c ?acc' ?w'] =>
        destruct (IH i' c acc' w') as (-> & -> & ->)
    end.
    cbn. rewrite !length_app, !Nat.add_1_r. cbn.
    by rewrite <- !app_assoc.
Qed.

Lemma generate_images_calls segs c w :
  calls (snd (generate_images segs c w))
  = calls w ++ image_calls (oracle w) (length (calls w)) segs c.
Proof. apply generate_images_from_calls. Qed.

Lemma collect_feedback_world ui i w :
  fst (add_feedback (Z.of_nat i) (feedback_dict (form ui i)) w) <> Ok true
  /\ calls (snd (collect_feedback ui i w)) = calls w
  /\ screen (snd (collect_feedback ui i w)) = screen w.
Proof.
  unfold collect_feedback, when.
  destruct (resolve_index (length (segments (tracker w))) (Z.of_nat i)) as [k|] eqn:E.
  - destruct (add_feedback_ok w (Z.of_nat i) (feedback_dict (form ui i)) k E)
      as (Hr & _ & Hc & Hs & _).
    split; [by rewrite Hr|].
    destruct (submit_clicked ui i); [|done].
    unfold mbind, M_bind, bind.
    destruct (add_feedback _ _ w) as [[b|e] w']; cbn in *; [|done].
    injection Hr as ->. done.
  - rewrite (add_feedback_fail _ _ _ E). split; [done|].
    destruct (submit_clicked ui i); [|done].
    unfold mbind, M_bind, bind. by rewrite (add_feedback_fail _ _ _ E).
Qed.

(** C6, counterexample: on a segment with all three artifacts, feedback
    that asks for regeneration with the revised prompt X returns [True]
    and is stored, but the segment keeps its artifacts and its prompt, and
    an image generation for the segment afterwards sends the prompt the
    completion call returns, not X. *)
Lemma feedback_does_not_regenerate :
  fst (add_feedback 0 regenerate_x done_world) = Ok true
  /\ segments (tracker (snd (add_feedback 0 regenerate_x done_world)))
     = [set_feedback (Some regenerate_x) done_segment]
  /\ posted_prompts
       (calls (snd (generate_images ["One."] "temp/face.png"
                      (snd (add_feedback 0 regenerate_x done_world)))))
     = ["prompt #0"]
  /\ ~ regeneration_claim done_world 0 0 regenerate_x "X" "temp/face.png".
Proof.
  split; [reflexivity|]. split; [reflexivity|]. split; [vm_compute; reflexivity|].
  intros (_ & _ & H).
  specialize (H (set_feedback (Some regenerate_x) done_segment) eq_refl).
  vm_compute in H. discriminate H.
Qed.

(** C6, as amended: for an index in range and feedback whose regeneration
    flag is truthy, [add_feedback] returns [True] and stores the feedback
    on the segment; the text, prompt and artifact paths of the segment stay
    as they are and no outside call is made.  The feedback handler of
    [main] makes no outside call either, and the record it submits never
    makes [add_feedback] return [True].  The prompts a later
    [generate_images] sends are the replies to its own completion
    requests. *)
Theorem feedback_is_only_stored (w : World) (idx : Z)
  (fb : list (string * pyval)) :
  in_range (length (segments (tracker w))) idx ->
  truthy (dict_get fb "needs_regeneration" (PBool false)) = true ->
  let w' := snd (add_feedback idx fb w) in
  fst (add_feedback idx fb w) = Ok true
  /\ (exists k s, resolve_index (length (segments (tracker w))) idx = Some k
        /\ segments (tracker w) !! k = Some s
        /\ segments (tracker w')
           = alter (set_feedback (Some fb)) k (segments (tracker w))
        /\ segments (tracker w') !! k = Some (set_feedback (Some fb) s)
        /\ (completed s -> completed (set_feedback (Some fb) s)))
  /\ calls w' = calls w
  /\ (forall ui i w0,
        fst (add_feedback (Z.of_nat i) (feedback_dict (form ui i)) w0) <> Ok true
        /\ calls (snd (collect_feedback ui i w0)) = calls w0)
  /\ (forall segs c w0,
        calls (snd (generate_images segs c w0))
        = calls w0 ++ image_calls (oracle w0) (length (calls w0)) segs c).
Proof.
  intros Hin Hflag w'. destruct (in_range_resolve _ _ Hin) as (k & Hk & Hlt).
  destruct (add_feedback_ok w idx fb k Hk) as (Hr & Ht & Hc & _).
  destruct (lookup_lt_is_Some_2 _ _ Hlt) as [s Hs].
  subst w'. split; [by rewrite Hr, Hflag|]. split; [|split; [done|split]].
  - exists k, s. rewrite Ht. cbn. split; [done|]. split; [done|]. split; [done|].
    split; [by rewrite list_lookup_alter_eq, Hs|]. done.
  - intros ui i w0. destruct (collect_feedback_world ui i w0) as (H1 & H2 & _). done.
  - intros segs c w0. apply generate_images_calls.
Qed.

(** C6, an instance: the completed segment of [done_world]. *)
Lemma feedback_is_only_stored_witness :
  in_range (length (segments (tracker done_world))) 0
  /\ fst (add_feedback 0 regenerate_x done_world) = Ok true
  /\ calls (snd (add_feedback 0 regenerate_x done_world)) = calls done_world.
Proof.
  assert (Hin : in_range (length (segments (tracker done_world))) 0)
    by (unfold in_range; cbn; lia).
  destruct (feedback_is_only_stored done_world 0 regenerate_x Hin eq_refl)
    as (H1 & _ & H3 & _).
  split; [exact Hin|]. split; [exact H1|exact H3].
Defined.

(** C7, counterexample: in a run whose first prompt request fails, no
    prompt is requested for the second segment.  And where both requests
    of a pass are made, the orchestrator holds the reply to the first
    while [generate_images] sends the reply to its own, second request. *)
Lemma prompt_not_once :
  length (filter (fun r => r = sd_request "Two.")
            (calls (snd (main case_ui (replying_world ten_part_reply))))) = 0%nat
  /\ ~ prompt_once_claim case_ui (replying_world ten_part_reply)
         ["One."; "Two."; "Three."; "Four."; "Five.";
          "Six."; "Seven."; "Eight."; "Nine."; "Ten."]
  /\ fst (prompt_then_image "One." "temp/face.png" (nominal_world ten_part_reply))
     = Ok ("prompt #0", ["temp/image_0.png"])
  /\ calls (snd (prompt_then_image "One." "temp/face.png"
                   (nominal_world ten_part_reply)))
     = [sd_request "One."; sd_request "One.";
        RunComfyPost "prompt #1" "blurry, low quality, bad composition"
          1080 1920 "temp/face.png";
        HttpGet "https://cdn.runcomfy.com/out.png"].
Proof.
  assert (H0 : length (filter (fun r => r = sd_request "Two.")
                 (calls (snd (main case_ui (replying_world ten_part_reply))))) = 0%nat)
    by (vm_compute; reflexivity).
  split; [exact H0|]. split; [|split; vm_compute; reflexivity].
  intros [H _]. specialize (H "Two."). rewrite H0 in H.
  assert (Hin : "Two." ∈ ["One."; "Two."; "Three."; "Four."; "Five.";
                          "Six."; "Seven."; "Eight."; "Nine."; "Ten."])
    by (apply list_elem_of_further, list_elem_of_here).
  specialize (H Hin). discriminate H.
Qed.

Lemma image_calls_paired orc segs : forall n c pos p neg wd h cr,
  image_calls orc n segs c !! S pos = Some (RunComfyPost p neg wd h cr) ->
  exists seg, image_calls orc n segs c !! pos = Some (sd_request seg)
    /\ orc (n + pos)%nat (sd_request seg) = Reply p.
Proof.
  induction segs as [|seg rest IH]; intros n c pos p neg wd h cr H; cbn in *; [done|].
  destruct (orc n (sd_request seg)) as [p0|msg] eqn:E0; [|done].
  destruct pos as [|pos]; cbn in H.
  { injection H as <- _ _ _ _. exists seg. by rewrite Nat.add_0_r. }
  destruct (orc (S n) _) as [url|msg] eqn:E1; [|done].
  destruct pos as [|pos]; cbn in H; [done|].
  destruct (orc (S (S n)) (HttpGet url)) as [content|msg] eqn:E2; [|done].
  destruct pos as [|pos]; cbn in H.
  { destruct rest; cbn in H; done. }
  destruct (IH _ _ _ _ _ _ _ _ H) as (seg' & Hl & Ho).
  exists seg'. split; [done|].
  by replace (n + S (S (S pos)))%nat with (S (S (S n)) + pos)%nat by lia.
Qed.

(** ** Sample evaluations *)

Example split_blank_ex :
  split_blank ("a" +:+ LF +:+ LF +:+ "b" +:+ LF +:+ LF +:+ LF +:+ "c")
  = ["a"; "b"; LF +:+ "c"].
Proof. reflexivity. Qed.

Example strip_ex : strip ("  a b" +:+ LF) = "a b" /\ strip (" " +:+ LF +:+ " ") = "".
Proof. split; reflexivity. Qed.

Example json_dump_ex :
  json_dump (PDict [("a", PList [PInt 1; PNone]); ("b", PStr "x")])
  = "{" +:+ LF +:+ "  " +:+ DQUOTE +:+ "a" +:+ DQUOTE +:+ ": [" +:+ LF
    +:+ "    1," +:+ LF +:+ "    null" +:+ LF +:+ "  ]," +:+ LF
    +:+ "  " +:+ DQUOTE +:+ "b" +:+ DQUOTE +:+ ": " +:+ DQUOTE +:+ "x" +:+ DQUOTE
    +:+ LF +:+ "}".
Proof. vm_compute. reflexivity. Qed.

Example resolve_index_ex :
  resolve_index 3 (-1) = Some 2%nat /\ resolve_index 3 3 = None
  /\ resolve_index 3 (-4) = None /\ resolve_index 0 0 = None.
Proof. repeat split. Qed.

(** A PDF without text is not read: it raises the error of the PDF
    reader, not the empty-input error. *)
Example blank_pdf_is_not_empty_input :
  fst (process_documents
         [{| path_str := "temp/scan.pdf"; suffix := ".PDF"; open_fails := None;
             read_utf8 := None; read_latin1 := "%PDF";
             read_pdf := PdfDoc false false [" "; ""] |}]
         fresh_world)
  = Raise (Exn Exception
      "Error processing PDF temp/scan.pdf: No text could be extracted from PDF: temp/scan.pdf").
Proof. vm_compute. reflexivity. Qed.

(** A run in which every outside call succeeds still stops in the first
    iteration: the prompt is requested once, the segment keeps the empty
    prompt it was started with, and the error is shown and logged. *)
Example nominal_run :
  let wf := snd (main case_ui (nominal_world ten_part_reply)) in
  fst (main case_ui (nominal_world ten_part_reply)) = Ok tt
  /\ calls wf = [segment_request ("The case." +:+ LF +:+ LF); sd_request "One."]
  /\ segments (tracker wf) = [new_segment ("One.", "")]
  /\ has_error (tracker wf) = true
  /\ screen wf
     = [StError ("An error occurred: " +:+ exn_msg prompt_type_error)].
Proof. vm_compute. repeat split. Qed.

(** * Further properties *)

(** ** The error log *)

Lemma errors_path_ne_state_path t : errors_path t <> state_path t.
Proof.
  unfold state_path, errors_path, path_join. intros H.
  apply String.app_inj in H. discriminate H.
Qed.

Lemma metrics_path_ne_errors_path t : metrics_path t <> errors_path t.
Proof.
  unfold metrics_path, errors_path, path_join. intros H.
  apply String.app_inj in H. discriminate H.
Qed.

Lemma metrics_path_ne_state_path t : metrics_path t <> state_path t.
Proof.
  unfold metrics_path, state_path, path_join. intros H.
  apply String.app_inj in H. discriminate H.
Qed.

(** The world [log_error] reaches, apart from the W&B record. *)
Lemma log_error_world w msg :
  fst (log_error msg w) = Ok tt
  /\ tracker (snd (log_error msg w)) = set_has_error true (tracker w)
  /\ store (snd (log_error msg w))
     = match logged_errors w with
       | Some l => <[errors_path (tracker w) :=
                     PList (l ++ [error_entry msg (clock w (ticks w))])]> (store w)
       | None => store w
       end
  /\ screen (snd (log_error msg w))
     = match store w !! errors_path (tracker w), logged_errors w with
       | Some v, None =>
           screen w ++ [StError ("Failed to log error locally: '" +:+ type_name v
                                 +:+ "' object has no attribute 'append'")]
       | _, _ => screen w
       end
  /\ calls (snd (log_error msg w)) = calls w
  /\ temp (snd (log_error msg w)) = temp w.
Proof.
  unfold log_error, logged_errors, errors_path, error_entry. unfold_m. cbn.
  destruct (store w !! path_join (storage_dir (tracker w)) "errors.json")
    as [[]|]; cbn; destruct (wandb (tracker w)); cbn; by repeat split.
Qed.

(** X1: [log_error] never raises.  When [errors.json] does not exist or
    holds a list, the call appends one entry, made of the message and the
    time of the call, after the entries already there, and changes no
    other file. *)
Theorem log_error_appends (w : World) (msg : string) (l : list pyval) :
  logged_errors w = Some l ->
  let w' := snd (log_error msg w) in
  fst (log_error msg w) = Ok tt
  /\ logged_errors w' = Some (l ++ [error_entry msg (clock w (ticks w))])
  /\ (forall path, path <> errors_path (tracker w) ->
        store w' !! path = store w !! path)
  /\ screen w' = screen w.
Proof.
  intros Hl w'. destruct (log_error_world w msg) as (Hr & Ht & Hs & Hsc & _).
  subst w'. rewrite Hl in Hs. split; [done|]. split; [|split].
  - unfold logged_errors. rewrite Ht, Hs. cbn. fold (errors_path (tracker w)).
    by rewrite lookup_insert_eq.
  - intros path Hne. rewrite Hs. by apply lookup_insert_ne.
  - rewrite Hsc, Hl. by destruct (store w !! errors_path (tracker w)).
Qed.

Lemma log_error_appends_witness :
  logged_errors fresh_world = Some []
  /\ logged_errors (snd (log_error "boom" fresh_world))
     = Some [error_entry "boom" "2024-01-01T12:00:00"].
Proof.
  split; [reflexivity|].
  destruct (log_error_appends fresh_world "boom" [] eq_refl) as (_ & H & _).
  exact H.
Defined.

(** X2: when [errors.json] holds something that is not a list, [log_error]
    still returns normally with [has_error] set, but the message is not
    logged: the file stays as it is and the failure to append is shown on
    the page. *)
Theorem log_error_on_foreign_file (w : World) (msg : string) (v : pyval) :
  store w !! errors_path (tracker w) = Some v ->
  (forall l, v <> PList l) ->
  let w' := snd (log_error msg w) in
  fst (log_error msg w) = Ok tt
  /\ has_error (tracker w') = true
  /\ store w' = store w
  /\ screen w'
     = screen w ++ [StError ("Failed to log error locally: '" +:+ type_name v
                             +:+ "' object has no attribute 'append'")].
Proof.
  intros Hv Hnl w'. destruct (log_error_world w msg) as (Hr & Ht & Hs & Hsc & _).
  subst w'. rewrite Ht. split; [done|]. split; [done|].
  unfold logged_errors in Hs, Hsc. rewrite Hv in Hs, Hsc.
  destruct v; try done. by destruct (Hnl l).
Qed.

Lemma log_error_on_foreign_file_witness :
  let w := snd (write_json "experiments/20240101_120000/errors.json"
                  (PDict [("error", PStr "old")]) fresh_world) in
  store (snd (log_error "boom" w)) = store w
  /\ screen (snd (log_error "boom" w))
     = [StError "Failed to log error locally: 'dict' object has no attribute 'append'"].
Proof.
  intros w.
  destruct (log_error_on_foreign_file w "boom" (PDict [("error", PStr "old")]))
    as (_ & _ & Hs & Hsc).
  - reflexivity.
  - discriminate.
  - split; [exact Hs|exact Hsc].
Defined.

(** ** Persistence of the tracker calls *)

Lemma op_effect_storage_dir o t : storage_dir (op_effect o t) = storage_dir t.
Proof.
  destruct o as [text_ prompt_|idx kwargs|msg|m|idx fb| |]; cbn; try reflexivity.
  - destruct (bind_keywords kwargs (None, None, None)) as [[[i a] v]|e];
      destruct (resolve_index (length (segments t)) idx); reflexivity.
  - destruct (resolve_index (length (segments t)) idx); reflexivity.
Qed.

Lemma start_segment_store w text_ prompt_ :
  fst (start_segment text_ prompt_ w) = Ok (Z.of_nat (length (segments (tracker w))))
  /\ store (snd (start_segment text_ prompt_ w))
     = <[state_path (tracker w) :=
           state_doc (op_effect (OStart text_ prompt_) (tracker w))
             (clock w (ticks w))]> (store w).
Proof.
  unfold start_segment, _save_local_state. unfold_m. cbn.
  destruct (wandb (tracker w)); cbn; rewrite length_app; cbn;
    (split; [f_equal; lia|reflexivity]).
Qed.

Lemma add_feedback_store w idx fb k :
  resolve_index (length (segments (tracker w))) idx = Some k ->
  store (snd (add_feedback idx fb w))
  = <[state_path (tracker w) :=
        state_doc (op_effect (OFeedback idx fb) (tracker w)) (clock w (ticks w))]>
      (store w)
  /\ sink (snd (add_feedback idx fb w))
     = if wandb (tracker w)
       then sink w ++ [PDict [("segment_" +:+ pretty idx +:+ "_feedback", PDict fb)]]
       else sink w.
Proof.
  intros H. unfold add_feedback, segment_at, assign_segment, _save_local_state.
  unfold_m. cbn. rewrite H. destruct (wandb (tracker w)); cbn; by split.
Qed.

Lemma finish_store w :
  store (snd (finish w))
  = <[state_path (tracker w) := state_doc (tracker w) (clock w (ticks w))]> (store w).
Proof.
  unfold finish, _cleanup, save_experiment, _save_local_state. unfold_m. cbn.
  destruct (wandb (tracker w)) eqn:E; cbn; rewrite ?E; cbn; done.
Qed.

Lemma log_metrics_store w m :
  store (snd (log_metrics m w)) = <[metrics_path (tracker w) := PDict m]> (store w).
Proof.
  unfold log_metrics. unfold_m. cbn. destruct (wandb (tracker w)); cbn; done.
Qed.

(** The outcome and the files of a call that ends with
    [_save_local_state]: either it raises and the world is as before, or
    it returns and the state file holds the document of the new state. *)
Lemma run_op_persists o w :
  persists o = true ->
  (exists e, run_op o w = (Raise e, w)
             /\ (exn_cls e = IndexError \/ exn_cls e = TypeError))
  \/ (fst (run_op o w) = Ok tt
      /\ store (snd (run_op o w))
         = <[state_path (tracker w) :=
               state_doc (op_effect o (tracker w)) (clock w (ticks w))]> (store w)).
Proof.
  destruct o as [text_ prompt_|idx kwargs|msg|m|idx fb| |]; cbn [persists run_op];
    try done; intros _.
  - right. destruct (start_segment_store w text_ prompt_) as [Hr Hs].
    unfold mbind, M_bind, bind.
    destruct (start_segment text_ prompt_ w) as [[z|e] w']; cbn in *; done.
  - unfold call_update_segment. cbn [op_effect].
    destruct (bind_keywords kwargs (None, None, None)) as [[[i a] v]|e] eqn:Ek.
    + destruct (resolve_index (length (segments (tracker w))) idx) as [k|] eqn:E.
      * right. by rewrite (update_segment_ok _ _ _ _ _ _ E).
      * left. exists index_error. rewrite (update_segment_fail _ _ _ _ _ E).
        split; [done|by left].
    + left. exists e. split; [done|]. right.
      clear -Ek. revert Ek. generalize (@None string, @None string, @None string).
      induction kwargs as [|[kw x] rest IH]; intros [[i a] v]; cbn; [done|].
      repeat case_match; try apply IH; by intros [= <-].
  - cbn [op_effect].
    destruct (resolve_index (length (segments (tracker w))) idx) as [k|] eqn:E.
    + right. destruct (add_feedback_ok w idx fb k E) as (Hr & _).
      destruct (add_feedback_store w idx fb k E) as (Hs & _).
      unfold mbind, M_bind, bind.
      destruct (add_feedback idx fb w) as [[b|e] w']; cbn in *; [|done].
      split; [done|]. by rewrite Hs, E.
    + left. exists index_error. unfold mbind, M_bind, bind.
      rewrite (add_feedback_fail _ _ _ E). split; [done|by left].
  - right. destruct (save_experiment_world w) as (Hr & _ & Hs & _). done.
  - right. destruct (finish_tracker w) as (Hr & _). split; [done|]. apply finish_store.
Qed.

(** X3: every call that changes segments writes through.  A call to
    [start_segment], [update_segment], [add_feedback], [save_experiment] or
    [finish] that returns leaves in [state.json] the document of the state
    it produced, stamped with the time of the call, and touches no other
    file. *)
Theorem state_is_written_through (o : op) (w : World) :
  persists o = true ->
  fst (run_op o w) = Ok tt ->
  let w' := snd (run_op o w) in
  store w' !! state_path (tracker w')
  = Some (state_doc (tracker w') (clock w (ticks w)))
  /\ (forall path, path <> state_path (tracker w) ->
        store w' !! path = store w !! path).
Proof.
  intros Hp Hok w'. subst w'.
  destruct (run_op_persists o w Hp) as [(e & He & _)|[_ Hs]].
  { rewrite He in Hok. discriminate Hok. }
  rewrite Hs, run_op_tracker. unfold state_path at 1.
  rewrite op_effect_storage_dir. fold (state_path (tracker w)).
  split; [apply lookup_insert_eq|].
  intros path Hne. by apply lookup_insert_ne.
Qed.

Lemma state_is_written_through_witness :
  store (snd (run_op (OStart "One." "") fresh_world))
    !! "experiments/20240101_120000/state.json"
  = Some (state_doc (tracker (snd (run_op (OStart "One." "") fresh_world)))
            "2024-01-01T12:00:00").
Proof.
  destruct (state_is_written_through (OStart "One." "") fresh_world eq_refl eq_refl)
    as [H _].
  exact H.
Defined.

Lemma run_op_errors_file o w :
  is_log_error o = false ->
  store (snd (run_op o w)) !! errors_path (tracker w)
  = store w !! errors_path (tracker w).
Proof.
  intros Hn. destruct (persists o) eqn:Hp.
  - destruct (run_op_persists o w Hp) as [(e & -> & _)|[_ ->]]; [done|].
    apply lookup_insert_ne. intros H. by apply (errors_path_ne_state_path (tracker w)).
  - destruct o; try done. cbn. rewrite log_metrics_store.
    apply lookup_insert_ne. apply metrics_path_ne_errors_path.
Qed.

Lemma run_op_logged_errors o w :
  logged_errors (snd (run_op o w))
  = match o with
    | OLogError msg =>
        match logged_errors w with
        | Some l => Some (l ++ [error_entry msg (clock w (ticks w))])
        | None => None
        end
    | _ => logged_errors w
    end.
Proof.
  assert (Hp : errors_path (tracker (snd (run_op o w))) = errors_path (tracker w)).
  { unfold errors_path. by rewrite run_op_tracker, op_effect_storage_dir. }
  destruct (is_log_error o) eqn:Hl.
  - destruct o; try done. cbn [run_op].
    destruct (log_error_world w error_message) as (_ & Ht & Hs & _).
    unfold logged_errors at 1. cbn [run_op] in Hp. rewrite Hp, Hs.
    destruct (logged_errors w) as [l|] eqn:E.
    + by rewrite lookup_insert_eq.
    + unfold logged_errors in E.
      by destruct (store w !! errors_path (tracker w)) as [[]|].
  - unfold logged_errors at 1. rewrite Hp, (run_op_errors_file o w Hl).
    by destruct o.
Qed.

(** X5: the error log only grows.  Through any sequence of tracker calls
    the entries already in [errors.json] stay in place, and the entries
    added are those of the [log_error] calls, one each, in call order. *)
Theorem error_log_append_only (ops : list op) (w : World) (l : list pyval) :
  logged_errors w = Some l ->
  exists l', logged_errors (run_ops ops w) = Some (l ++ l')
    /\ error_of <$> l' = PStr <$> messages ops.
Proof.
  revert w l. induction ops as [|o ops IH]; intros w l Hl; cbn [run_ops].
  - exists []. by rewrite app_nil_r.
  - pose proof (run_op_logged_errors o w) as Ho. rewrite Hl in Ho.
    destruct (is_log_error o) eqn:Hlog.
    + destruct o; try done.
      destruct (IH _ _ Ho) as (l' & Hl' & Hm).
      exists (error_entry error_message (clock w (ticks w)) :: l').
      rewrite Hl', <- app_assoc. split; [done|]. cbn. by rewrite Hm.
    + assert (Ho' : logged_errors (snd (run_op o w)) = Some l) by (by destruct o).
      destruct (IH _ _ Ho') as (l' & Hl' & Hm).
      exists l'. split; [done|]. by destruct o.
Qed.

Lemma error_log_append_only_witness :
  exists l',
    logged_errors (run_ops [OLogError "first"; OStart "One." ""; OLogError "second"]
                     fresh_world) = Some ([] ++ l')
    /\ error_of <$> l' = [PStr "first"; PStr "second"].
Proof.
  apply (error_log_append_only
           [OLogError "first"; OStart "One." ""; OLogError "second"] fresh_world []).
  reflexivity.
Defined.

(** ** Feedback *)

Lemma dict_get_missing (d : list (string * pyval)) k default :
  (forall v, (k, v) ∉ d) -> dict_get d k default = default.
Proof.
  induction d as [|[k' v'] d IH]; intros H; cbn; [done|].
  destruct (String.eqb k' k) eqn:E.
  - apply String.eqb_eq in E as ->. destruct (H v'). by left.
  - apply IH. intros v Hin. apply (H v). by right.
Qed.

(** X6: [add_feedback] raises [IndexError], changing nothing, exactly when
    the index is out of range.  Otherwise it replaces the feedback of the
    addressed segment by the record given (an earlier record is not
    merged), leaves every other field and segment alone, and returns the
    truth value of the record's [needs_regeneration] entry, [False] when
    the record has no such entry. *)
Theorem add_feedback_outcome (w : World) (idx : Z) (fb : list (string * pyval)) :
  let n := length (segments (tracker w)) in
  (~ in_range n idx -> add_feedback idx fb w = (Raise index_error, w))
  /\ (in_range n idx ->
      exists k s, resolve_index n idx = Some k
        /\ segments (tracker w) !! k = Some s
        /\ fst (add_feedback idx fb w)
           = Ok (truthy (dict_get fb "needs_regeneration" (PBool false)))
        /\ segments (tracker (snd (add_feedback idx fb w)))
           = <[k := set_feedback (Some fb) s]> (segments (tracker w))
        /\ feedback (set_feedback (Some fb) s) = Some fb)
  /\ ((forall v, ("needs_regeneration", v) ∉ fb) ->
      forall b, fst (add_feedback idx fb w) = Ok b -> b = false).
Proof.
  intros n. split; [|split].
  - intros Hn. apply add_feedback_fail. by apply resolve_index_None.
  - intros Hin. destruct (in_range_resolve _ _ Hin) as (k & Hk & Hlt).
    destruct (lookup_lt_is_Some_2 _ _ Hlt) as [s Hs].
    destruct (add_feedback_ok w idx fb k Hk) as (Hr & Ht & _).
    exists k, s. rewrite Ht. cbn. repeat split; try done.
    apply list_eq. intros j. destruct (decide (k = j)) as [<-|Hne].
    + by rewrite list_lookup_alter_eq, list_lookup_insert_eq, Hs.
    + by rewrite list_lookup_alter_ne, list_lookup_insert_ne.
  - intros Hmiss b Hb.
    destruct (resolve_index n idx) as [k|] eqn:E.
    + destruct (add_feedback_ok w idx fb k E) as (Hr & _).
      rewrite Hr in Hb. injection Hb as <-. by rewrite dict_get_missing.
    + by rewrite (add_feedback_fail _ _ _ E) in Hb.
Qed.

Lemma add_feedback_outcome_witness :
  fst (add_feedback 0 [("comments", PStr "too dark")] one_segment_world) = Ok false
  /\ add_feedback 1 [("comments", PStr "too dark")] one_segment_world
     = (Raise index_error, one_segment_world).
Proof.
  destruct (add_feedback_outcome one_segment_world 0 [("comments", PStr "too dark")])
    as (_ & Hin & _).
  destruct (add_feedback_outcome one_segment_world 1 [("comments", PStr "too dark")])
    as (Hout & _).
  split.
  - destruct Hin as (k & s & _ & _ & Hr & _); [unfold in_range; cbn; lia|]. exact Hr.
  - apply Hout. unfold in_range. cbn. lia.
Defined.

(** ** Updates *)

Lemma apply_paths_twice i2 a2 v2 i a v s :
  apply_paths i2 a2 v2 (apply_paths i a v s)
  = apply_paths (if truthy_opt i2 then i2 else i) (if truthy_opt a2 then a2 else a)
      (if truthy_opt v2 then v2 else v) s.
Proof.
  unfold apply_paths.
  destruct (truthy_opt i2) eqn:E1, (truthy_opt a2) eqn:E2, (truthy_opt v2) eqn:E3;
    rewrite ?E1, ?E2, ?E3;
    destruct (truthy_opt i), (truthy_opt a), (truthy_opt v); reflexivity.
Qed.

Lemma update_segment_tracker w idx i a v k :
  resolve_index (length (segments (tracker w))) idx = Some k ->
  tracker (snd (update_segment idx i a v w))
  = set_segments (alter (apply_paths i a v) k (segments (tracker w))) (tracker w).
Proof. intros H. by rewrite (update_segment_ok _ _ _ _ _ _ H). Qed.

(** X7: two calls of [update_segment] on the same segment amount to one
    call that gives each path its later truthy value, so repeating a call
    changes nothing more; calls on different segments can be swapped. *)
Theorem update_segment_composes (w : World) (idx : Z) (i a v : option string) :
  in_range (length (segments (tracker w))) idx ->
  let w1 := snd (update_segment idx i a v w) in
  (forall i2 a2 v2,
     tracker (snd (update_segment idx i2 a2 v2 w1))
     = tracker (snd (update_segment idx
                       (if truthy_opt i2 then i2 else i)
                       (if truthy_opt a2 then a2 else a)
                       (if truthy_opt v2 then v2 else v) w)))
  /\ tracker (snd (update_segment idx i a v w1)) = tracker w1
  /\ (forall idx2 i2 a2 v2,
        in_range (length (segments (tracker w))) idx2 ->
        resolve_index (length (segments (tracker w))) idx2
        <> resolve_index (length (segments (tracker w))) idx ->
        tracker (snd (update_segment idx2 i2 a2 v2 w1))
        = tracker (snd (update_segment idx i a v
                          (snd (update_segment idx2 i2 a2 v2 w))))).
Proof.
  intros Hin w1. destruct (in_range_resolve _ _ Hin) as (k & Hk & Hlt).
  assert (Ht1 : tracker w1
                = set_segments (alter (apply_paths i a v) k (segments (tracker w)))
                    (tracker w)) by (by apply update_segment_tracker).
  assert (Hk1 : forall j, resolve_index (length (segments (tracker w1))) j
                          = resolve_index (length (segments (tracker w))) j).
  { intros j. rewrite Ht1. cbn. by rewrite length_alter. }
  assert (Hcomp : forall i2 a2 v2,
     tracker (snd (update_segment idx i2 a2 v2 w1))
     = tracker (snd (update_segment idx
                       (if truthy_opt i2 then i2 else i)
                       (if truthy_opt a2 then a2 else a)
                       (if truthy_opt v2 then v2 else v) w))).
  { intros i2 a2 v2.
    rewrite (update_segment_tracker w1 idx i2 a2 v2 k) by (by rewrite Hk1).
    rewrite (update_segment_tracker w idx _ _ _ k Hk).
    rewrite Ht1. cbn [segments]. rewrite set_segments_twice. cbn [segments set_segments].
    rewrite list_alter_alter_eq. f_equal.
    apply list_alter_ext; [|done]. intros s _. cbn. apply apply_paths_twice. }
  split; [exact Hcomp|]. split.
  - rewrite Hcomp. rewrite (update_segment_tracker w idx _ _ _ k Hk), Ht1.
    f_equal. apply list_alter_ext; [|done]. intros s _.
    by destruct (truthy_opt i), (truthy_opt a), (truthy_opt v).
  - intros idx2 i2 a2 v2 Hin2 Hne.
    destruct (in_range_resolve _ _ Hin2) as (k2 & Hk2 & Hlt2).
    rewrite Hk2, Hk in Hne.
    rewrite (update_segment_tracker w1 idx2 i2 a2 v2 k2) by (by rewrite Hk1).
    pose proof (update_segment_tracker w idx2 i2 a2 v2 k2 Hk2) as Ht2.
    rewrite (update_segment_tracker _ idx i a v k)
      by (rewrite Ht2; cbn; by rewrite length_alter).
    rewrite Ht1, Ht2. rewrite !set_segments_twice. cbn [segments set_segments].
    f_equal. apply list_alter_alter_ne. congruence.
Qed.

Lemma update_segment_composes_witness :
  tracker (snd (update_segment 0 None (Some "temp/audio_0.mp3") None
                  (snd (update_segment 0 (Some "temp/image_0.png") None None
                          one_segment_world))))
  = tracker (snd (update_segment 0 (Some "temp/image_0.png")
                    (Some "temp/audio_0.mp3") None one_segment_world)).
Proof.
  assert (Hin : in_range (length (segments (tracker one_segment_world))) 0)
    by (unfold in_range; cbn; lia).
  destruct (update_segment_composes one_segment_world 0
              (Some "temp/image_0.png") None None Hin) as (H & _).
  exact (H None (Some "temp/audio_0.mp3") None).
Defined.

(** X8: of the three artifacts [update_segment] stores, only the video
    reaches W&B.  The image and the audio are wrapped with [wandb.Image]
    and [wandb.Audio], a name the module never binds, and the resulting
    exception is swallowed; so a successful call logs one record, for the
    video path, when a run exists and the video path is truthy, and no
    record otherwise. *)
Theorem update_segment_logs_video_only (w : World) (idx : Z)
  (i a v : option string) :
  in_range (length (segments (tracker w))) idx ->
  sink (snd (update_segment idx i a v w))
  = (if wandb (tracker w) && truthy_opt v
     then sink w ++ [PDict [("segment_" +:+ pretty idx +:+ "_video", of_opt_str v)]]
     else sink w)
  /\ sink (snd (update_segment idx i a None w)) = sink w.
Proof.
  intros Hin. destruct (in_range_resolve _ _ Hin) as (k & Hk & _).
  rewrite !(update_segment_ok _ _ _ _ _ _ Hk). cbn.
  by rewrite andb_false_r.
Qed.

Lemma update_segment_logs_video_only_witness :
  let w := world_of
             (set_segments [done_segment]
                (__init__ "Crime-Doc-Generator" "20240101_120000" true))
             (fun _ => "2024-01-01T12:00:00") (fun _ _ => Fails "offline") in
  sink (snd (update_segment 0 (Some "temp/image_0.png") (Some "temp/audio_0.mp3")
               None w)) = [].
Proof.
  intros w.
  destruct (update_segment_logs_video_only w 0 (Some "temp/image_0.png")
              (Some "temp/audio_0.mp3") None) as [_ H].
  - unfold in_range. cbn. lia.
  - exact H.
Defined.

(** X9: [log_metrics] never raises and does not touch the tracker, the
    state file or the error log; it replaces [metrics.json] by the record
    given, so of two calls in a row only the second record remains. *)
Theorem log_metrics_replaces (w : World) (m1 m2 : list (string * pyval)) :
  let w1 := snd (log_metrics m1 w) in
  let w2 := snd (log_metrics m2 w1) in
  fst (log_metrics m1 w) = Ok tt
  /\ tracker w1 = tracker w
  /\ store w1 !! metrics_path (tracker w) = Some (PDict m1)
  /\ store w1 !! state_path (tracker w) = store w !! state_path (tracker w)
  /\ store w1 !! errors_path (tracker w) = store w !! errors_path (tracker w)
  /\ store w2 = store (snd (log_metrics m2 w)).
Proof.
  intros w1 w2. subst w1 w2.
  destruct (log_metrics_tracker w m1) as [Hr Ht].
  rewrite !log_metrics_store, Ht.
  split; [done|]. split; [done|]. split; [apply lookup_insert_eq|].
  split; [|split].
  - apply lookup_insert_ne. apply metrics_path_ne_state_path.
  - apply lookup_insert_ne. apply metrics_path_ne_errors_path.
  - apply insert_insert_eq.
Qed.

(** X10: the index [start_segment] returns can be used at once.  Right
    after the call, [update_segment] with that index, and likewise with
    -1, succeeds and stores the paths on the segment just started, which
    is the last one. *)
Theorem start_then_update (w : World) (text_ prompt_ : string)
  (i a v : option string) :
  let w1 := snd (start_segment text_ prompt_ w) in
  let idx := Z.of_nat (length (segments (tracker w))) in
  fst (start_segment text_ prompt_ w) = Ok idx
  /\ fst (update_segment idx i a v w1) = Ok tt
  /\ segments (tracker (snd (update_segment idx i a v w1)))
     = segments (tracker w) ++ [apply_paths i a v (new_segment (text_, prompt_))]
  /\ fst (update_segment (-1) i a v w1) = Ok tt
  /\ tracker (snd (update_segment (-1) i a v w1))
     = tracker (snd (update_segment idx i a v w1)).
Proof.
  intros w1 idx.
  destruct (start_segment_result w text_ prompt_) as [Hr Ht].
  assert (Hs1 : segments (tracker w1)
                = segments (tracker w) ++ [new_segment (text_, prompt_)])
    by (subst w1; by rewrite Ht).
  assert (Hw1 : wandb (tracker w1) = wandb (tracker w)) by (subst w1; by rewrite Ht).
  assert (Hlen : length (segments (tracker w1)) = S (length (segments (tracker w))))
    by (rewrite Hs1, length_app; cbn; lia).
  assert (Hk : resolve_index (length (segments (tracker w1))) idx
               = Some (length (segments (tracker w)))).
  { rewrite Hlen. subst idx. apply resolve_index_nonneg. lia. }
  assert (Hk' : resolve_index (length (segments (tracker w1))) (-1)
                = Some (length (segments (tracker w)))).
  { rewrite Hlen. unfold resolve_index.
    replace (0 <=? -1) with false by reflexivity.
    destruct (Z.leb_spec (- Z.of_nat (S (length (segments (tracker w))))) (-1));
      [f_equal; lia|lia]. }
  split; [done|].
  rewrite (update_segment_ok _ _ _ _ _ _ Hk), (update_segment_ok _ _ _ _ _ _ Hk').
  cbn. split; [done|]. split; [|done].
  rewrite Hs1. rewrite <- (Nat.add_0_r (length (segments (tracker w)))).
  by rewrite alter_app_r.
Qed.

(** ** Reading the documents *)

(** X11: [extract_text_from_pdf] changes nothing in the world.  When it
    returns, the file could be opened and parsed, was not encrypted beyond
    the empty password, and the text returned is that of the pages, each
    followed by a blank line, and is not blank.  Whatever goes wrong is
    raised as a plain [Exception] whose message starts with
    "Error processing PDF", the path and a colon. *)
Theorem extract_text_from_pdf_outcome (p : Path) (w : World) :
  snd (extract_text_from_pdf p w) = w
  /\ (forall text_,
        fst (extract_text_from_pdf p w) = Ok text_ ->
        open_fails p = None
        /\ (exists enc dec pages,
              read_pdf p = PdfDoc enc dec pages
              /\ (enc = true -> dec = true)
              /\ text_ = foldl (fun acc page => acc +:+ page +:+ LF +:+ LF) "" pages)
        /\ strip text_ <> "")
  /\ (forall e,
        fst (extract_text_from_pdf p w) = Raise e ->
        exn_cls e = Exception
        /\ exists cause,
             exn_msg e = "Error processing PDF " +:+ path_str p +:+ ": " +:+ cause).
Proof.
  unfold extract_text_from_pdf. unfold_m.
  destruct (open_fails p) as [e0|]; cbn.
  { split; [done|]. split; [done|]. intros e [= <-]. split; [done|]. by eexists. }
  destruct (read_pdf p) as [e0|enc dec pages]; cbn.
  { split; [done|]. split; [done|]. intros e [= <-]. split; [done|]. by eexists. }
  destruct enc, dec; cbn;
    try (split; [done|]; split; [done|]; intros e [= <-]; split; [done|]; by eexists).
  all: destruct (String.eqb (strip (foldl _ "" pages)) "") eqn:E; cbn;
    try (split; [done|]; split; [done|]; intros e [= <-]; split; [done|]; by eexists).
  all: apply String.eqb_neq in E; split; [done|]; split; [|done];
    intros text_ [= <-]; split; [done|]; split; [|done];
    eexists _, _, _; split; [done|]; by split.
Qed.

(** ** The segmenter's calls and failures *)

Lemma process_documents_calls ps w :
  calls (snd (process_documents ps w)) = calls w
  \/ exists combined_text,
       calls (snd (process_documents ps w)) = calls w ++ [segment_request combined_text].
Proof.
  unfold process_documents. unfold mbind, M_bind, bind.
  pose proof (combine_documents_world ps "" w) as H.
  destruct (combine_documents ps "" w) as [[x|e] w']; cbn in *; subst; [|by left].
  destruct (String.eqb (strip x) ""); [by left|].
  right. exists x. unfold try_except, request_, raise, ret.
  fold (segment_request x).
  destruct (oracle w _ _) as [content|msg]; cbn -[ensure_ten]; [|done].
  by destruct (candidates content).
Qed.

(** X12: [process_documents] makes at most one outside call, the
    completion request for the segments, and changes nothing else in the
    world: not the tracker, not the files, not the page. *)
Theorem process_documents_one_call (ps : list Path) (w : World) :
  let w' := snd (process_documents ps w) in
  (calls w' = calls w
   \/ exists combined_text, calls w' = calls w ++ [segment_request combined_text])
  /\ tracker w' = tracker w /\ store w' = store w /\ temp w' = temp w
  /\ screen w' = screen w /\ sink w' = sink w /\ ticks w' = ticks w.
Proof.
  intros w'. subst w'. split; [apply process_documents_calls|].
  unfold process_documents. unfold mbind, M_bind, bind.
  pose proof (combine_documents_world ps "" w) as H.
  destruct (combine_documents ps "" w) as [[x|e] w']; cbn in *; subst; [|done].
  destruct (String.eqb (strip x) ""); [done|].
  unfold try_except, request_, raise, ret.
  destruct (oracle w _ _) as [content|msg]; cbn -[ensure_ten]; [|done].
  by destruct (candidates content).
Qed.

(** X13: once the documents are read and their text is not blank, every
    failure of [process_documents] is reported as a plain [Exception]
    whose message is "Failed to process documents: " followed by the
    cause: the message of the failed completion call, or "No segments
    were generated" when the completion holds no usable candidate. *)
Theorem process_documents_failures (ps : list Path) (texts : list string)
  (w : World) :
  Forall2 readable ps texts ->
  strip (combined texts) <> "" ->
  calls (snd (process_documents ps w))
  = calls w ++ [segment_request (combined texts)]
  /\ (forall msg,
        oracle w (length (calls w)) (segment_request (combined texts)) = Fails msg ->
        fst (process_documents ps w)
        = Raise (Exn Exception ("Failed to process documents: " +:+ msg)))
  /\ (forall content,
        oracle w (length (calls w)) (segment_request (combined texts)) = Reply content ->
        candidates content = [] ->
        fst (process_documents ps w)
        = Raise (Exn Exception
                   "Failed to process documents: No segments were generated")).
Proof.
  intros Hread Hblank.
  unfold process_documents. unfold mbind, M_bind, bind.
  rewrite (combine_documents_readable _ _ Hread). fold (combined texts).
  apply String.eqb_neq in Hblank. rewrite Hblank.
  unfold try_except, request_, raise, ret. fold (segment_request (combined texts)).
  destruct (oracle w _ _) as [content|msg]; cbn -[ensure_ten].
  - split; [by destruct (candidates content)|]. split; [done|].
    intros c [= <-] Hc. by rewrite Hc.
  - split; [done|]. split; [by intros m [= <-]|done].
Qed.

Lemma process_documents_failures_witness :
  fst (process_documents [txt_path "case.txt" "The case."] fresh_world)
  = Raise (Exn Exception "Failed to process documents: offline")
  /\ fst (process_documents [txt_path "case.txt" "The case."]
            (replying_world (" " +:+ LF +:+ LF +:+ " ")))
     = Raise (Exn Exception "Failed to process documents: No segments were generated").
Proof.
  assert (Hread : Forall2 readable [txt_path "case.txt" "The case."] ["The case."]).
  { constructor; [apply txt_path_readable|constructor]. }
  assert (Hblank : strip (combined ["The case."]) <> "") by (vm_compute; discriminate).
  destruct (process_documents_failures _ _ fresh_world Hread Hblank) as (_ & H1 & _).
  destruct (process_documents_failures _ _ (replying_world (" " +:+ LF +:+ LF +:+ " "))
              Hread Hblank) as (_ & _ & H2).
  split; [apply H1; reflexivity|]. apply (H2 (" " +:+ LF +:+ LF +:+ " ")); reflexivity.
Defined.

Lemma combine_documents_stops pre : forall texts p post e acc w,
  Forall2 readable pre texts ->
  read_document p w = (Raise e, w) ->
  combine_documents (pre ++ p :: post) acc w = (Raise e, w).
Proof.
  induction pre as [|q pre IH]; intros texts p post e acc w Hread Hp.
  - cbn. unfold mbind, M_bind, bind. by rewrite Hp.
  - apply Forall2_cons_inv_l in Hread as (t & ts & Hq & Hrest & ->).
    cbn. unfold mbind, M_bind, bind. rewrite (Hq w). by eapply IH.
Qed.

(** X14: a document that cannot be read stops [process_documents] before
    any outside call.  When the documents before it can be read, the
    exception of the failing one is raised as it is, the documents after
    it are not looked at, and the world is unchanged. *)
Theorem unreadable_document_aborts (pre post : list Path) (texts : list string)
  (p : Path) (e : exn) (w : World) :
  Forall2 readable pre texts ->
  fst (read_document p w) = Raise e ->
  process_documents (pre ++ p :: post) w = (Raise e, w).
Proof.
  intros Hread Hp.
  assert (Hp' : read_document p w = (Raise e, w)).
  { pose proof (read_document_world p w) as Hw.
    destruct (read_document p w) as [r w']. cbn in *. by subst. }
  unfold process_documents. unfold mbind, M_bind, bind.
  by rewrite (combine_documents_stops pre texts p post e "" w Hread Hp').
Qed.

Lemma unreadable_document_aborts_witness :
  process_documents
    [txt_path "case.txt" "The case."; missing_path "gone.txt";
     txt_path "more.txt" "More."]
    (replying_world ten_part_reply)
  = (Raise (Exn Exception "[Errno 2] No such file or directory: 'temp/gone.txt'"),
     replying_world ten_part_reply).
Proof.
  apply (unreadable_document_aborts [txt_path "case.txt" "The case."]
           [txt_path "more.txt" "More."] ["The case."]).
  - constructor; [apply txt_path_readable|constructor].
  - reflexivity.
Defined.

(** ** What the segments look like *)

Lemma string_app_cons (c : ascii) (s t : string) :
  String c s +:+ t = String c (s +:+ t).
Proof. reflexivity. Qed.

Lemma string_app_assoc (s1 s2 s3 : string) : (s1 +:+ s2) +:+ s3 = s1 +:+ s2 +:+ s3.
Proof.
  induction s1 as [|c s1 IH]; [done|]. rewrite !string_app_cons. by rewrite IH.
Qed.

Lemma string_app_nil_r (s : string) : s +:+ "" = s.
Proof. induction s as [|c s IH]; [done|]. rewrite string_app_cons. by rewrite IH. Qed.

Lemma rev_app_spec (s1 s2 : string) : String.rev_app s1 s2 = String.rev s1 +:+ s2.
Proof.
  revert s2. induction s1 as [|c s1 IH]; intros s2; cbn; [done|].
  unfold String.rev. cbn. rewrite (IH (String c s2)), (IH (String c "")).
  by rewrite string_app_assoc.
Qed.

Lemma rev_cons (c : ascii) (s : string) :
  String.rev (String c s) = String.rev s +:+ String c "".
Proof. unfold String.rev at 1. cbn. apply rev_app_spec. Qed.

Lemma rev_app_distr (s1 s2 : string) :
  String.rev (s1 +:+ s2) = String.rev s2 +:+ String.rev s1.
Proof.
  induction s1 as [|c s1 IH].
  - change ("" +:+ s2) with s2. change (String.rev "") with "".
    by rewrite string_app_nil_r.
  - by rewrite string_app_cons, !rev_cons, IH, string_app_assoc.
Qed.

Lemma rev_involutive (s : string) : String.rev (String.rev s) = s.
Proof.
  induction s as [|c s IH]; [done|].
  by rewrite rev_cons, rev_app_distr, IH.
Qed.

Lemma lstrip_idem (s : string) : lstrip (lstrip s) = lstrip s.
Proof.
  induction s as [|c s IH]; cbn [lstrip]; [done|].
  destruct (isspace c) eqn:E; [done|]. cbn [lstrip]. by rewrite E.
Qed.

Lemma lstrip_app_nonspace (x : string) (c : ascii) :
  isspace c = false -> lstrip (x +:+ String c "") = lstrip x +:+ String c "".
Proof.
  intros Hc. induction x as [|d x IH].
  - change ("" +:+ String c "") with (String c ""). cbn [lstrip]. by rewrite Hc.
  - rewrite string_app_cons. cbn [lstrip]. by destruct (isspace d).
Qed.

Lemma rstrip_cons_nonspace (c : ascii) (t : string) :
  isspace c = false -> rstrip (String c t) = String c (rstrip t).
Proof.
  intros Hc. unfold rstrip.
  by rewrite rev_cons, lstrip_app_nonspace, rev_app_distr.
Qed.

Lemma rstrip_idem (s : string) : rstrip (rstrip s) = rstrip s.
Proof. unfold rstrip. by rewrite rev_involutive, lstrip_idem. Qed.

Lemma lstrip_rstrip_lstrip (s : string) :
  lstrip (rstrip (lstrip s)) = rstrip (lstrip s).
Proof.
  induction s as [|c s IH]; cbn [lstrip]; [done|].
  destruct (isspace c) eqn:E; [done|].
  rewrite rstrip_cons_nonspace by done. cbn [lstrip]. by rewrite E.
Qed.

Lemma strip_stripped (s : string) : stripped (strip s).
Proof.
  unfold stripped, strip. by rewrite lstrip_rstrip_lstrip, rstrip_idem.
Qed.

Lemma candidates_clean content :
  Forall (fun s => s <> "" /\ stripped s) (candidates content).
Proof.
  unfold candidates. apply Forall_forall. intros s Hs.
  apply list_elem_of_filter in Hs as [Hne Hin]. split; [done|].
  apply list_elem_of_fmap in Hin as (x & -> & _). apply strip_stripped.
Qed.

Lemma ensure_ten_Forall (P : string -> Prop) l :
  Forall P l -> P placeholder -> Forall P (ensure_ten l).
Proof.
  intros Hl Hp. unfold ensure_ten. apply Forall_take.
  destruct (length l <? 10)%nat; [|done].
  apply Forall_app. split; [done|]. by apply Forall_replicate.
Qed.

(** X15: every segment [process_documents] returns is usable as it is:
    there are ten of them, none is empty, and none begins or ends with
    white space. *)
Theorem segments_are_clean (ps : list Path) (w : World) (segs : list string) :
  fst (process_documents ps w) = Ok segs ->
  length segs = 10%nat
  /\ Forall (fun s => s <> "" /\ stripped s) segs.
Proof.
  intros H. split.
  { destruct (process_documents ps w) as [r w'] eqn:E. cbn in H. subst.
    by apply process_documents_ten in E. }
  revert H. unfold process_documents. unfold mbind, M_bind, bind.
  destruct (combine_documents ps "" w) as [[x|e] w0]; [|done].
  destruct (String.eqb (strip x) ""); [done|].
  unfold try_except, request_, raise, ret.
  destruct (oracle w0 _ _) as [content|msg]; cbn -[ensure_ten]; [|done].
  pose proof (candidates_clean content) as Hc.
  destruct (candidates content) as [|c cs]; cbn -[ensure_ten]; [done|].
  intros [= <-]. apply ensure_ten_Forall; [done|].
  split; [done|]. vm_compute. reflexivity.
Qed.

Lemma segments_are_clean_witness :
  Forall (fun s => s <> "" /\ stripped s)
    (["A body is found."; "The trial begins."]
     ++ replicate 8 "[Segment content to be generated]").
Proof.
  apply (segments_are_clean [txt_path "case.txt" "The case."]
           (replying_world two_part_reply)).
  vm_compute. reflexivity.
Defined.

(** ** The generators *)

Lemma generate_images_from_ok segs : forall i c acc w paths w',
  generate_images_from i segs c acc w = (Ok paths, w') ->
  paths = acc ++ (image_file <$> seq i (length segs))
  /\ length (calls w') = (length (calls w) + 3 * length segs)%nat
  /\ (forall p, is_Some (temp w !! p) -> is_Some (temp w' !! p))
  /\ (forall j, (i <= j < i + length segs)%nat -> is_Some (temp w' !! image_file j))
  /\ tracker w' = tracker w /\ store w' = store w.
Proof.
  induction segs as [|seg rest IH]; intros i c acc w paths w' H; cbn in H.
  - injection H as <- <-. rewrite app_nil_r. cbn.
    repeat split; try done; try (intros; lia).
  - unfold mbind, M_bind, bind, generate_sd_prompts, request_ in H.
    destruct (oracle w (length (calls w)) (sd_request seg)) as [p|msg]; [|done].
    cbn in H.
    destruct (oracle w (length (calls w ++ [sd_request seg])) _) as [url|msg];
      [|done].
    cbn in H.
    match type of H with
    | context [oracle w ?n (HttpGet url)] =>
        destruct (oracle w n (HttpGet url)) as [content|msg]; [|done]
    end.
    unfold sleep, write_temp, mret, M_ret, ret in H. cbn in H.
    apply IH in H as (Hp & Hc & Ht & Hj & Htr & Hst). cbn in *.
    rewrite !length_app in Hc. cbn in Hc.
    split; [by rewrite Hp, <- app_assoc|]. split; [lia|].
    split; [|split; [|done]].
    + intros q Hq. apply Ht. rewrite !lookup_insert_is_Some'. tauto.
    + intros j Hlt. destruct (decide (j = i)) as [->|Hne].
      * apply Ht. rewrite !lookup_insert_is_Some'. by left.
      * apply Hj. lia.
Qed.

(** X16: when [generate_images] returns, it returns one path per segment,
    in order, named after the position of the segment in the list and
    nothing else; each path names a file under [temp/], and three outside
    calls were made per segment.  Given a single segment, as [main] does,
    the path is always [temp/image_0.png], whichever segment it is. *)
Theorem generate_images_paths (segs : list string) (c : string) (w w' : World)
  (paths : list string) :
  generate_images segs c w = (Ok paths, w') ->
  paths = image_file <$> seq 0 (length segs)
  /\ Forall (fun p => is_Some (temp w' !! p)) paths
  /\ length (calls w') = (length (calls w) + 3 * length segs)%nat
  /\ tracker w' = tracker w
  /\ (forall seg, segs = [seg] -> paths = ["temp/image_0.png"]).
Proof.
  intros H. apply generate_images_from_ok in H as (Hp & Hc & _ & Hj & Ht & _).
  cbn in Hp. split; [done|]. split; [|split; [done|split; [done|]]].
  - rewrite Hp. apply Forall_fmap, Forall_forall. intros j Hin.
    apply elem_of_seq in Hin. apply Hj. lia.
  - intros seg ->. by rewrite Hp.
Qed.

Lemma generate_images_paths_witness :
  fst (generate_images ["One."] "temp/face.png" (nominal_world ten_part_reply))
  = Ok ["temp/image_0.png"]
  /\ fst (generate_images ["Two."] "temp/face.png" (nominal_world ten_part_reply))
     = Ok ["temp/image_0.png"].
Proof.
  pose (w := nominal_world ten_part_reply).
  pose (r1 := generate_images ["One."] "temp/face.png" w).
  pose (r2 := generate_images ["Two."] "temp/face.png" w).
  destruct (generate_images_paths ["One."] "temp/face.png" w (snd r1)
              ["temp/image_0.png"]) as (_ & _ & _ & _ & H1); [vm_compute; reflexivity|].
  destruct (generate_images_paths ["Two."] "temp/face.png" w (snd r2)
              ["temp/image_0.png"]) as (_ & _ & _ & _ & H2); [vm_compute; reflexivity|].
  split; vm_compute; reflexivity.
Defined.

(** X17: [generate_images] opens the image file before it downloads the
    image.  When the completion and the image request succeed and the
    download fails, the call raises with the message of the download and
    leaves an empty file at the image path. *)
Theorem failed_download_leaves_empty_file (seg : string) (rest : list string)
  (c : string) (w : World) (p url msg : string) :
  let n := length (calls w) in
  let post := RunComfyPost p "blurry, low quality, bad composition" 1080 1920 c in
  oracle w n (sd_request seg) = Reply p ->
  oracle w (S n) post = Reply url ->
  oracle w (S (S n)) (HttpGet url) = Fails msg ->
  let w' := snd (generate_images (seg :: rest) c w) in
  fst (generate_images (seg :: rest) c w) = Raise (Exn Exception msg)
  /\ temp w' !! "temp/image_0.png" = Some ""
  /\ calls w' = calls w ++ [sd_request seg; post; HttpGet url].
Proof.
  intros n post H1 H2 H3 w'. subst w'.
  unfold generate_images. cbn [generate_images_from].
  unfold mbind, M_bind, bind, generate_sd_prompts, request_.
  fold n. rewrite H1. cbn. rewrite length_app, Nat.add_1_r. cbn.
  fold n post. rewrite H2. cbn. rewrite !length_app, !Nat.add_1_r. cbn.
  fold n. rewrite H3. cbn.
  split; [done|]. split; [apply lookup_insert_eq|].
  by rewrite <- !app_assoc.
Qed.

Lemma failed_download_leaves_empty_file_witness :
  fst (generate_images ["One."] "temp/face.png" download_fails_world)
  = Raise (Exn Exception "connection reset")
  /\ temp (snd (generate_images ["One."] "temp/face.png" download_fails_world))
       !! "temp/image_0.png" = Some "".
Proof.
  destruct (failed_download_leaves_empty_file "One." [] "temp/face.png"
              download_fails_world "a dim hallway"
              "https://cdn.runcomfy.com/out.png" "connection reset")
    as (H1 & H2 & _); try reflexivity.
  split; [exact H1|exact H2].
Defined.

Lemma generate_voiceovers_from_ok segs : forall i voice acc w paths w',
  generate_voiceovers_from i segs voice acc w = (Ok paths, w') ->
  paths = acc ++ (audio_file <$> seq i (length segs))
  /\ calls w' = calls w
                ++ ((fun s => ElevenLabs s voice "eleven_multilingual_v2") <$> segs)
  /\ (forall p, is_Some (temp w !! p) -> is_Some (temp w' !! p))
  /\ (forall j, (i <= j < i + length segs)%nat -> is_Some (temp w' !! audio_file j))
  /\ tracker w' = tracker w.
Proof.
  induction segs as [|seg rest IH]; intros i voice acc w paths w' H; cbn in H.
  - injection H as <- <-. rewrite !app_nil_r. cbn.
    repeat split; try done; try (intros; lia).
  - unfold mbind, M_bind, bind, request_ in H.
    destruct (oracle w (length (calls w)) _) as [audio|msg]; [|done].
    unfold sleep, write_temp, mret, M_ret, ret in H. cbn in H.
    apply IH in H as (Hp & Hc & Ht & Hj & Htr). cbn in *.
    split; [by rewrite Hp, <- app_assoc|]. split; [by rewrite Hc, <- app_assoc|].
    split; [|split; [|done]].
    + intros q Hq. apply Ht. rewrite lookup_insert_is_Some'. tauto.
    + intros j Hlt. destruct (decide (j = i)) as [->|Hne].
      * apply Ht. rewrite lookup_insert_is_Some'. by left.
      * apply Hj. lia.
Qed.

(** X18: when [generate_voiceovers] returns, it has asked the voice
    service once per segment, in order, with the segment text and the
    voice given, and returns one path per segment, named after the
    position in the list, each naming a file under [temp/]. *)
Theorem generate_voiceovers_paths (segs : list string) (voice : string)
  (w w' : World) (paths : list string) :
  generate_voiceovers segs voice w = (Ok paths, w') ->
  paths = audio_file <$> seq 0 (length segs)
  /\ Forall (fun p => is_Some (temp w' !! p)) paths
  /\ calls w' = calls w
                ++ ((fun s => ElevenLabs s voice "eleven_multilingual_v2") <$> segs)
  /\ tracker w' = tracker w.
Proof.
  intros H. apply generate_voiceovers_from_ok in H as (Hp & Hc & _ & Hj & Ht).
  cbn in Hp. split; [done|]. split; [|done].
  rewrite Hp. apply Forall_fmap, Forall_forall. intros j Hin.
  apply elem_of_seq in Hin. apply Hj. lia.
Qed.

Lemma generate_voiceovers_paths_witness :
  calls (snd (generate_voiceovers ["One."; "Two."] "21m00Tcm4TlvDq8ikWAM"
                (nominal_world ten_part_reply)))
  = [ElevenLabs "One." "21m00Tcm4TlvDq8ikWAM" "eleven_multilingual_v2";
     ElevenLabs "Two." "21m00Tcm4TlvDq8ikWAM" "eleven_multilingual_v2"].
Proof.
  pose (w := nominal_world ten_part_reply).
  pose (r := generate_voiceovers ["One."; "Two."] "21m00Tcm4TlvDq8ikWAM" w).
  destruct (generate_voiceovers_paths ["One."; "Two."] "21m00Tcm4TlvDq8ikWAM" w
              (snd r) ["temp/audio_0.mp3"; "temp/audio_1.mp3"])
    as (_ & _ & H & _); [vm_compute; reflexivity|].
  exact H.
Defined.

Lemma create_video_segments_from_world pairs : forall i acc w,
  temp (snd (create_video_segments_from i pairs acc w)) = temp w
  /\ tracker (snd (create_video_segments_from i pairs acc w)) = tracker w
  /\ store (snd (create_video_segments_from i pairs acc w)) = store w
  /\ (forall paths,
        fst (create_video_segments_from i pairs acc w) = Ok paths ->
        paths = acc ++ (video_file <$> seq i (length pairs))
        /\ calls (snd (create_video_segments_from i pairs acc w))
           = calls w
             ++ imap (fun j ia => Ffmpeg ia.1 ia.2 (video_file (i + j))) pairs).
Proof.
  induction pairs as [|[image audio] rest IH]; intros i acc w; cbn.
  - split; [done|]. split; [done|]. split; [done|].
    intros paths [= <-]. by rewrite !app_nil_r.
  - unfold mbind, M_bind, bind, request_.
    destruct (oracle w (length (calls w)) _) as [out|msg]; cbn; [|done].
    destruct (IH (S i) (acc ++ [video_file i])
                (record_call (Ffmpeg image audio (video_file i)) w))
      as (Ht & Htr & Hs & Hp).
    split; [done|]. split; [done|]. split; [done|].
    intros paths Hok.
    change ("temp/segment_" +:+ pretty i +:+ ".mp4") with (video_file i) in *.
    destruct (Hp paths Hok) as [-> ->]. cbn [calls record_call].
    rewrite <- !app_assoc, Nat.add_0_r. split; [done|].
    cbn [app]. do 2 f_equal. apply imap_ext. intros j [x y] _. cbn.
    by rewrite Nat.add_succ_r.
Qed.

(** X19: [create_video_segments] pairs images and audio by position and
    drops what has no partner, so it returns as many paths as the shorter
    list is long, none for an empty list; it starts one [ffmpeg] process
    per pair and does not wait for it, so it writes no file itself: the
    paths it returns name files that need not exist yet. *)
Theorem create_video_segments_outcome (image_paths audio_paths : list string)
  (w : World) :
  let r := create_video_segments image_paths audio_paths w in
  temp (snd r) = temp w /\ tracker (snd r) = tracker w
  /\ (forall paths,
        fst r = Ok paths ->
        paths = video_file <$> seq 0 (length image_paths `min` length audio_paths)
        /\ length (calls (snd r))
           = (length (calls w) + length image_paths `min` length audio_paths)%nat)
  /\ (image_paths = [] \/ audio_paths = [] -> r = (Ok [], w)).
Proof.
  intros r. subst r. unfold create_video_segments.
  destruct (create_video_segments_from_world (zip image_paths audio_paths) 0 [] w)
    as (Ht & Htr & _ & Hp).
  split; [done|]. split; [done|]. split.
  - intros paths Hok. destruct (Hp paths Hok) as [-> ->].
    rewrite length_app, length_imap, length_zip. done.
  - intros [-> | ->]; [done|]. by destruct image_paths.
Qed.

Lemma create_video_segments_outcome_witness :
  fst (create_video_segments ["temp/image_0.png"; "temp/image_1.png"]
         ["temp/audio_0.mp3"] (nominal_world ten_part_reply))
  = Ok ["temp/segment_0.mp4"]
  /\ temp (snd (create_video_segments ["temp/image_0.png"; "temp/image_1.png"]
                  ["temp/audio_0.mp3"] (nominal_world ten_part_reply))) = ∅.
Proof.
  destruct (create_video_segments_outcome ["temp/image_0.png"; "temp/image_1.png"]
              ["temp/audio_0.mp3"] (nominal_world ten_part_reply))
    as (Ht & _ & Hp & _).
  split; [|exact Ht].
  destruct (Hp ["temp/segment_0.mp4"]) as [_ _]; [vm_compute; reflexivity|].
  vm_compute. reflexivity.
Defined.

(** ** A run of [main], whatever the outside world does *)

(** Where the [try] block of [main] ends: always in an exception, with at
    most one segment started and at most two outside calls made, both to
    the completion service. *)
Lemma generate_outcome ui ci w :
  exists e w2 l,
    generate ui ci w = (Raise e, w2)
    /\ calls w2 = calls w ++ l /\ Forall (fun r => is_completion r = true) l
    /\ (length l <= 2)%nat
    /\ (segments (tracker w2) = segments (tracker w)
        \/ exists seg, segments (tracker w2)
                       = segments (tracker w) ++ [new_segment (seg, "")])
    /\ storage_dir (tracker w2) = storage_dir (tracker w)
    /\ has_error (tracker w2) = has_error (tracker w)
    /\ store w2 !! errors_path (tracker w) = store w !! errors_path (tracker w).
Proof.
  unfold generate. unfold mbind, M_bind, bind.
  destruct (save_inputs_world ui ci w) as (Hr & Ht & Hs & Hc & Ho & _).
  destruct (save_inputs ui ci w) as [[inputs|e'] wu]; cbn [fst snd] in *; [|done].
  cbv zeta.
  destruct (process_documents_one_call inputs.1 wu) as (Hcalls & Htd & Hsd & _).
  destruct (process_documents inputs.1 wu) as [[segs|e] ws] eqn:Hdocs;
    cbn [fst snd] in *.
  - apply process_documents_ten in Hdocs.
    destruct segs as [|seg rest]; [done|].
    rewrite process_segments_cons.
    destruct (start_segment_world ws seg "") as (_ & Hcs & _).
    destruct (start_segment_result ws seg "") as [_ Hts].
    destruct (start_segment_store ws seg "") as [_ Hss].
    destruct Hcalls as [Hcw | [x Hcw]];
      eexists _, _, _; (split; [done|]); cbn [calls record_call tracker store];
      rewrite Hcs, Hts, Hss, Htd, Hsd, Ht, Hs, Hcw, Hc; cbn.
    + split; [done|]. split; [repeat (apply Forall_cons_2; [reflexivity|]); apply Forall_nil_2|]. split; [cbn; lia|].
      split; [right; by eexists|]. split; [done|]. split; [done|].
      apply lookup_insert_ne. intros H. by apply (errors_path_ne_state_path (tracker w)).
    + split; [rewrite <- app_assoc; reflexivity|]. split; [repeat (apply Forall_cons_2; [reflexivity|]); apply Forall_nil_2|].
      split; [cbn; lia|].
      split; [right; by eexists|]. split; [done|]. split; [done|].
      apply lookup_insert_ne. intros H. by apply (errors_path_ne_state_path (tracker w)).
  - exists e, ws. rewrite Htd, Hsd, Ht, Hs.
    destruct Hcalls as [-> | [x ->]]; rewrite Hc.
    + exists []. rewrite app_nil_r. split; [done|]. split; [done|].
      split; [by apply Forall_nil_2|]. split; [cbn; lia|]. split; [by left|]. done.
    + eexists. split; [done|]. split; [done|].
      split; [repeat (apply Forall_cons_2; [reflexivity|]); apply Forall_nil_2|].
      split; [cbn; lia|]. split; [by left|]. done.
Qed.

(** The files under [experiments/] when [main] returns after its [try]
    block raised [e] in world [w2]. *)
Lemma main_after_failure_store ui ci w e w2 :
  generate_clicked ui = true -> uploaded_files ui <> [] ->
  character_image ui = Some ci ->
  generate ui ci w = (Raise e, w2) ->
  (exists n, store (snd (main ui w)) !! state_path (tracker w2)
             = Some (state_doc (set_has_error true (tracker w2)) (clock w2 n)))
  /\ store (snd (main ui w)) !! errors_path (tracker w2)
     = match logged_errors w2 with
       | Some l => Some (PList (l ++ [error_entry ("An error occurred: " +:+ exn_msg e)
                                        (clock w2 (ticks w2))]))
       | None => store w2 !! errors_path (tracker w2)
       end.
Proof.
  intros Hclick Hfiles Hci Hgen. unfold main. rewrite Hclick, Hci.
  destruct (uploaded_files ui) as [|f fs]; [done|].
  unfold try_finally, try_except. rewrite Hgen.
  unfold finish, _cleanup, save_experiment, _save_local_state, log_error, rmtree_temp.
  unfold logged_errors, errors_path, state_path, error_entry.
  unfold_m. cbn.
  destruct (store w2 !! path_join (storage_dir (tracker w2)) "errors.json")
    as [[]|] eqn:Ef; cbn;
    destruct (wandb (tracker w2)) eqn:E; cbn; repeat (rewrite E; cbn);
    (split; [eexists; apply lookup_insert_eq|]);
    rewrite !lookup_insert_ne
      by (unfold path_join; intros H; apply String.app_inj in H; discriminate H);
    rewrite ?lookup_insert_eq; done.
Qed.

(** X20: a run of [main] that is started never completes a segment.
    Whatever the documents hold and whatever the outside services answer,
    [main] returns normally with [has_error] set and the temporary files
    removed.  It starts at most one segment, which is left with the empty
    prompt and without artifacts, and the only outside calls it makes, at
    most two, go to the completion service: the image, voice and video
    generators are never reached. *)
Theorem started_run_always_fails (ui : UI) (ci : upload) (w : World) :
  generate_clicked ui = true -> uploaded_files ui <> [] ->
  character_image ui = Some ci ->
  let wf := snd (main ui w) in
  fst (main ui w) = Ok tt
  /\ has_error (tracker wf) = true
  /\ temp wf = ∅
  /\ (segments (tracker wf) = segments (tracker w)
      \/ exists seg, segments (tracker wf)
                     = segments (tracker w) ++ [new_segment (seg, "")])
  /\ exists l, calls wf = calls w ++ l
       /\ Forall (fun r => is_completion r = true) l /\ (length l <= 2)%nat.
Proof.
  intros Hclick Hfiles Hci wf.
  destruct (generate_outcome ui ci w)
    as (e & w2 & l & Hgen & Hc & Hl & Hlen & Hsegs & _).
  destruct (main_after_failure ui ci w e w2 Hclick Hfiles Hci Hgen)
    as (Hr & Ht & Hcf & Htemp & _).
  subst wf. rewrite Ht, Hcf. cbn.
  split; [done|]. split; [done|]. split; [done|]. split; [done|].
  exists l. by rewrite Hc.
Qed.

Lemma started_run_always_fails_witness :
  fst (main case_ui (nominal_world ten_part_reply)) = Ok tt
  /\ has_error (tracker (snd (main case_ui (nominal_world ten_part_reply)))) = true.
Proof.
  destruct (started_run_always_fails case_ui face (nominal_world ten_part_reply))
    as (H1 & H2 & _); [reflexivity|discriminate|reflexivity|].
  split; [exact H1|exact H2].
Defined.

(** X21: a run of [main] that is started leaves its traces on disk.  When
    it returns, [state.json] holds the document of the final state, and
    the error log, when it could be read as a list at the start, has
    gained exactly one entry: "An error occurred: " followed by the
    message of the exception that ended the run. *)
Theorem started_run_is_recorded (ui : UI) (ci : upload) (w : World)
  (l : list pyval) :
  generate_clicked ui = true -> uploaded_files ui <> [] ->
  character_image ui = Some ci ->
  logged_errors w = Some l ->
  let wf := snd (main ui w) in
  (exists ts, store wf !! state_path (tracker wf) = Some (state_doc (tracker wf) ts))
  /\ exists e ts,
       fst (generate ui ci w) = Raise e
       /\ logged_errors wf
          = Some (l ++ [error_entry ("An error occurred: " +:+ exn_msg e) ts]).
Proof.
  intros Hclick Hfiles Hci Hl wf.
  destruct (generate_outcome ui ci w)
    as (e & w2 & l2 & Hgen & _ & _ & _ & _ & Hdir & _ & Herr).
  destruct (main_after_failure ui ci w e w2 Hclick Hfiles Hci Hgen) as (_ & Ht & _).
  destruct (main_after_failure_store ui ci w e w2 Hclick Hfiles Hci Hgen)
    as ((n & Hstate) & Hlog).
  assert (Hep : errors_path (tracker w2) = errors_path (tracker w))
    by (unfold errors_path; by rewrite Hdir).
  assert (Hl2 : logged_errors w2 = Some l).
  { unfold logged_errors in *. by rewrite Hep, Herr. }
  subst wf. split.
  - exists (clock w2 n). rewrite Ht. exact Hstate.
  - exists e, (clock w2 (ticks w2)). rewrite Hgen. split; [done|].
    rewrite Hl2 in Hlog. unfold logged_errors. rewrite Ht.
    change (errors_path (set_has_error true (tracker w2)))
      with (errors_path (tracker w2)).
    by rewrite Hlog.
Qed.

Lemma started_run_is_recorded_witness :
  exists e ts,
    fst (generate case_ui face (nominal_world ten_part_reply)) = Raise e
    /\ logged_errors (snd (main case_ui (nominal_world ten_part_reply)))
       = Some ([] ++ [error_entry ("An error occurred: " +:+ exn_msg e) ts]).
Proof.
  destruct (started_run_is_recorded case_ui face (nominal_world ten_part_reply) [])
    as (_ & H); [reflexivity|discriminate|reflexivity|reflexivity|].
  exact H.
Defined.

(** * The loop of [main] and its handler *)

(** When the loop raises, one iteration raised after the iterations before
    it had returned. *)
Lemma process_segments_raises_inv ui c segs : forall i v w e w2,
  process_segments ui c i segs v w = (Raise e, w2) ->
  exists pre seg post vp w1,
    segs = pre ++ seg :: post
    /\ process_segments ui c i pre v w = (Ok vp, w1)
    /\ process_segment ui c (i + length pre) seg w1 = (Raise e, w2).
Proof.
  induction segs as [|s rest IH]; intros i v w e w2 H.
  - cbn in H. unfold mret, M_ret, ret in H. discriminate H.
  - cbn in H. unfold mbind, M_bind, bind in H.
    destruct (process_segment ui c i s w) as [[x|e'] w'] eqn:Hs.
    + destruct (IH _ _ _ _ _ H) as (pre & seg & post & vp & w1 & -> & Hpre & Hseg).
      exists (s :: pre), seg, post, vp, w1. split; [done|]. split.
      * cbn. unfold mbind, M_bind, bind. by rewrite Hs.
      * cbn [length]. by replace (i + S (length pre))%nat with (S i + length pre)%nat by lia.
    + injection H as <- <-.
      exists [], s, rest, v, w. split; [done|]. split; [done|].
      cbn [length]. by rewrite Nat.add_0_r.
Qed.

Lemma sd_request_inj s1 s2 : sd_request s1 = sd_request s2 -> s1 = s2.
Proof.
  unfold sd_request. intros H. injection H as H.
  by apply String.app_inj in H.
Qed.

(** C1, as amended: when segmentation has succeeded and the loop over the
    segments raises, one iteration raised after the iterations before it
    had returned, and the exception left the loop: the segments started
    are those up to the failing one, which is the last.  The exception
    reaches the handler of [main], which shows the message and appends it
    to the error log.  [main] itself returns normally with [has_error]
    set; apart from that flag the tracker is as the failure left it, no
    outside call is made after the failure, the temporary files are
    removed and [state.json] holds the final state. *)
Theorem failure_stops_the_run (ui : UI) (ci : upload) (w : World)
  (segs : list string) (ws w2 : World) (e : exn) :
  generate_clicked ui = true -> uploaded_files ui <> [] ->
  character_image ui = Some ci ->
  process_documents (saved <$> uploaded_files ui) (snd (save_inputs ui ci w))
  = (Ok segs, ws) ->
  process_segments ui (path_join "temp" (name ci)) 0 segs None ws = (Raise e, w2) ->
  let wf := snd (main ui w) in
  (exists pre seg post vp w1,
     segs = pre ++ seg :: post
     /\ process_segments ui (path_join "temp" (name ci)) 0 pre None ws = (Ok vp, w1)
     /\ process_segment ui (path_join "temp" (name ci)) (length pre) seg w1
        = (Raise e, w2)
     /\ text <$> drop (length (segments (tracker w))) (segments (tracker wf))
        = pre ++ [seg])
  /\ fst (main ui w) = Ok tt
  /\ has_error (tracker wf) = true
  /\ tracker wf = set_has_error true (tracker w2)
  /\ calls wf = calls w2
  /\ temp wf = ∅
  /\ StError ("An error occurred: " +:+ exn_msg e) ∈ screen wf
  /\ (exists ts, store wf !! state_path (tracker wf) = Some (state_doc (tracker wf) ts))
  /\ (forall l, logged_errors w2 = Some l ->
        exists ts, logged_errors wf
                   = Some (l ++ [error_entry ("An error occurred: " +:+ exn_msg e) ts])).
Proof.
  intros Hclick Hfiles Hci Hdocs Hloop wf.
  assert (Hgen : generate ui ci w = (Raise e, w2)).
  { apply (generate_raises ui ci w segs e (ws, w2)); done. }
  destruct (main_after_failure ui ci w e w2 Hclick Hfiles Hci Hgen)
    as (Hr & Ht & Hc & Htemp & Hscr).
  destruct (main_after_failure_store ui ci w e w2 Hclick Hfiles Hci Hgen)
    as ((n & Hstate) & Hlog).
  subst wf. split; [|split; [done|]; split; [by rewrite Ht|]; split; [done|];
                     split; [done|]; split; [done|]; split; [done|]; split].
  - destruct (process_segments_raises_inv _ _ _ _ _ _ _ _ Hloop)
      as (pre & seg & post & vp & w1 & Hsegs & Hpre & Hseg).
    exists pre, seg, post, vp, w1. split; [done|]. split; [done|].
    split; [done|]. rewrite Ht.
    destruct pre as [|s pre]; [|by rewrite process_segments_cons in Hpre].
    cbn in Hpre. unfold mret, M_ret, ret in Hpre. injection Hpre as <- <-.
    cbn [length Nat.add] in Hseg.
    rewrite process_segment_raises in Hseg. injection Hseg as _ <-.
    cbn. destruct (start_segment_result ws seg "") as [_ ->]. cbn.
    destruct (process_documents_world (saved <$> uploaded_files ui)
                (snd (save_inputs ui ci w))) as (Htd & _).
    rewrite Hdocs in Htd. cbn in Htd. rewrite Htd.
    destruct (save_inputs_world ui ci w) as (_ & -> & _).
    by rewrite drop_app_length.
  - exists (clock w2 n). rewrite Ht. exact Hstate.
  - intros l Hl. exists (clock w2 (ticks w2)). rewrite Hl in Hlog.
    unfold logged_errors. rewrite Ht.
    change (errors_path (set_has_error true (tracker w2)))
      with (errors_path (tracker w2)).
    by rewrite Hlog.
Qed.

(** C1, an instance: ten segments, of which the first fails in its prompt
    stage; the run ends flagged, with the failure on the page and the
    state saved. *)
Lemma failure_stops_the_run_witness :
  has_error (tracker (snd (main case_ui (replying_world ten_part_reply)))) = true
  /\ StError ("An error occurred: " +:+ "offline")
     ∈ screen (snd (main case_ui (replying_world ten_part_reply)))
  /\ exists ts,
       store (snd (main case_ui (replying_world ten_part_reply)))
       !! state_path (tracker (snd (main case_ui (replying_world ten_part_reply))))
       = Some (state_doc
                 (tracker (snd (main case_ui (replying_world ten_part_reply)))) ts).
Proof.
  pose (w := replying_world ten_part_reply).
  pose (ws := snd (process_documents (saved <$> uploaded_files case_ui)
                     (snd (save_inputs case_ui face w)))).
  pose (w2 := snd (process_segment case_ui (path_join "temp" (name face)) 0 "One." ws)).
  destruct (failure_stops_the_run case_ui face w
              ["One."; "Two."; "Three."; "Four."; "Five.";
               "Six."; "Seven."; "Eight."; "Nine."; "Ten."]
              ws w2 (Exn Exception "offline"))
    as (_ & _ & Herr & _ & _ & _ & Hscr & Hstate & _).
  - reflexivity.
  - discriminate.
  - reflexivity.
  - vm_compute. reflexivity.
  - vm_compute. reflexivity.
  - split; [exact Herr|]. split; [exact Hscr|exact Hstate].
Defined.

(** C7, as amended: every iteration of the loop of [main] starts a segment
    with the segment's text and then requests a prompt for it from the
    completion service.  [generate_images] requests a prompt of its own
    for every segment it reaches, and each image request it makes carries
    the reply to the completion request made just before it: the calls it
    makes are determined by the segment texts, the reference image and the
    answers of the outside services, and no prompt held by the caller or
    recorded on a segment enters them.  When the loop of [main] raises,
    every prompt request made since segmentation is for a segment up to
    and including the failing one: the segments after it get none. *)
Theorem prompt_is_synthesized_per_call :
  (forall ui c i seg w,
     exists rest s,
       calls (snd (process_segment ui c i seg w)) = calls w ++ sd_request seg :: rest
       /\ segments (tracker (snd (process_segment ui c i seg w)))
          !! length (segments (tracker w)) = Some s
       /\ text s = seg)
  /\ (forall segs c w,
        calls (snd (generate_images segs c w))
        = calls w ++ image_calls (oracle w) (length (calls w)) segs c)
  /\ (forall orc n segs c pos p neg wd h cr,
        image_calls orc n segs c !! S pos = Some (RunComfyPost p neg wd h cr) ->
        exists seg, image_calls orc n segs c !! pos = Some (sd_request seg)
          /\ orc (n + pos)%nat (sd_request seg) = Reply p)
  /\ (forall ui ci w segs ws e w2,
        generate_clicked ui = true -> uploaded_files ui <> [] ->
        character_image ui = Some ci ->
        process_documents (saved <$> uploaded_files ui) (snd (save_inputs ui ci w))
        = (Ok segs, ws) ->
        process_segments ui (path_join "temp" (name ci)) 0 segs None ws
        = (Raise e, w2) ->
        exists pre seg post vp w1,
          segs = pre ++ seg :: post
          /\ process_segments ui (path_join "temp" (name ci)) 0 pre None ws
             = (Ok vp, w1)
          /\ process_segment ui (path_join "temp" (name ci)) (length pre) seg w1
             = (Raise e, w2)
          /\ forall s,
               sd_request s ∈ drop (length (calls ws)) (calls (snd (main ui w))) ->
               s ∈ pre ++ [seg]).
Proof.
  split; [|split; [|split]].
  - intros ui c i seg w. rewrite process_segment_raises. cbn.
    destruct (start_segment_world w seg "") as (_ & -> & _).
    destruct (start_segment_result w seg "") as [_ ->]. cbn.
    exists [], (new_segment (seg, "")). split; [done|]. split; [|done].
    by apply list_lookup_middle.
  - apply generate_images_calls.
  - intros orc n segs. apply image_calls_paired.
  - intros ui ci w segs ws e w2 Hclick Hfiles Hci Hdocs Hloop.
    assert (Hgen : generate ui ci w = (Raise e, w2)).
    { apply (generate_raises ui ci w segs e (ws, w2)); done. }
    destruct (main_after_failure ui ci w e w2 Hclick Hfiles Hci Hgen)
      as (_ & _ & Hc & _).
    destruct (process_segments_raises_inv _ _ _ _ _ _ _ _ Hloop)
      as (pre & seg & post & vp & w1 & Hsegs & Hpre & Hseg).
    exists pre, seg, post, vp, w1. split; [done|]. split; [done|].
    split; [done|]. intros s. rewrite Hc.
    destruct pre as [|s0 pre]; [|by rewrite process_segments_cons in Hpre].
    cbn in Hpre. unfold mret, M_ret, ret in Hpre. injection Hpre as <- <-.
    cbn [length Nat.add] in Hseg.
    rewrite process_segment_raises in Hseg. injection Hseg as _ <-.
    cbn. destruct (start_segment_world ws seg "") as (_ & -> & _).
    rewrite drop_app_length. intros Hin.
    apply list_elem_of_singleton in Hin. apply sd_request_inj in Hin.
    subst s. apply list_elem_of_here.
Qed.

(** C7, an instance: the image request of a pass over one segment carries
    the reply to the completion request made just before it; and in a run
    over ten segments in which every service answers, the prompt requests
    made after segmentation are for segments up to the failing one. *)
Lemma prompt_is_synthesized_per_call_witness :
  (exists seg,
     image_calls (nominal_oracle ten_part_reply) 1 ["One."] "temp/face.png" !! 0%nat
     = Some (sd_request seg)
     /\ nominal_oracle ten_part_reply (1 + 0)%nat (sd_request seg) = Reply "prompt #1")
  /\ (exists pre seg post,
        ["One."; "Two."; "Three."; "Four."; "Five.";
         "Six."; "Seven."; "Eight."; "Nine."; "Ten."] = pre ++ seg :: post
        /\ forall s,
             sd_request s
             ∈ drop (length (calls (snd (process_documents
                                           (saved <$> uploaded_files case_ui)
                                           (snd (save_inputs case_ui face
                                                   (nominal_world ten_part_reply)))))))
                 (calls (snd (main case_ui (nominal_world ten_part_reply)))) ->
             s ∈ pre ++ [seg]).
Proof.
  pose (w := nominal_world ten_part_reply).
  pose (ws := snd (process_documents (saved <$> uploaded_files case_ui)
                     (snd (save_inputs case_ui face w)))).
  pose (w2 := snd (process_segment case_ui (path_join "temp" (name face)) 0 "One." ws)).
  destruct prompt_is_synthesized_per_call as (_ & _ & H3 & H4). split.
  - apply (H3 (nominal_oracle ten_part_reply) 1%nat ["One."] "temp/face.png" 0%nat
              "prompt #1" "blurry, low quality, bad composition" 1080 1920
              "temp/face.png").
    reflexivity.
  - destruct (H4 case_ui face w
                ["One."; "Two."; "Three."; "Four."; "Five.";
                 "Six."; "Seven."; "Eight."; "Nine."; "Ten."]
                ws prompt_type_error w2)
      as (pre & seg & post & _ & _ & Hsegs & _ & _ & Hin).
    + reflexivity.
    + discriminate.
    + reflexivity.
    + vm_compute. reflexivity.
    + vm_compute. reflexivity.
    + exists pre, seg, post. split; [exact Hsegs|exact Hin].
Defined.
